(** * polygon-etl: the parse-DAG builder

    A shallow embedding of [airflow/dags/polygonetl_airflow/build_parse_dag.py]
    and the properties of its validator and of the task graph it builds.

    The Python module reads a folder of JSON table definitions and SQL view
    files, validates the definitions, and registers Airflow operators and the
    edges between them.  The embedding keeps that structure:

    - a JSON value is an inductive type, with the dictionary operations the
      module uses ([.get], subscription, truthiness, comparison to a [str]);
    - a Python exception is a value of [exn]; code that may raise returns a
      [result];
    - the DAG is a record holding the operators in the order in which they
      were constructed and the edges that [>>] recorded between them;
      constructing an operator and recording an edge always succeed, what
      Airflow itself checks about identifiers, duplicates and cycles being
      the framework's business;
    - the file system, the JSON and SQL readers, the reference pattern and
      the built-in conversions that the module only calls are variables of
      the section. *)

From Stdlib Require Import String Ascii List ZArith Lia Bool Arith PeanoNat.
Import ListNotations.

Local Open Scope list_scope.
Local Open Scope string_scope.

(** A proof depends on the section variables of its statement only. *)
Set Default Proof Using "Type".

(** Drop from the context whatever the goal does not depend on. *)
Ltac only_goal := repeat match goal with x : _ |- _ => clear x end.

(** ** Python values and exceptions *)

(** What [json.loads] produces.  An object is kept as the list of its
    entries, a number as an integer: this module only tests a number for
    truth and compares it to strings. *)
#[warnings="-register-all"]
Inductive json : Type :=
| JNull
| JBool (b : bool)
| JNum (n : Z)
| JStr (s : string)
| JArr (items : list json)
| JObj (entries : list (string * json)).

(** The exceptions this module can meet while it builds a graph. *)
Inductive exn : Type :=
| ValueError (msg : string)
| KeyError (key : string)
| TypeError
| AttributeError.

Inductive result (A : Type) : Type :=
| Return (a : A)
| Raise (e : exn).

Arguments Return {A} a.
Arguments Raise {A} e.

Definition bind {A B : Type} (r : result A) (k : A -> result B) : result B :=
  match r with
  | Return a => k a
  | Raise e => Raise e
  end.

Notation "x <- r ;; k" := (bind r (fun x => k))
  (at level 61, r at next level, right associativity).
Notation "' p <- r ;; k" := (bind r (fun x => match x with p => k end))
  (at level 61, p pattern, r at next level, right associativity).

(** ** Strings *)

(** [s.split(sep)] for a one-character separator. *)
Fixpoint split (sep : ascii) (s : string) : list string :=
  match s with
  | EmptyString => [EmptyString]
  | String c s' =>
      if Ascii.eqb c sep then EmptyString :: split sep s'
      else match split sep s' with
           | h :: t => String c h :: t
           | [] => [String c EmptyString]
           end
  end.

(** [s.split('/')[-1]]; [os.path.basename] computes the same string,
    [p[p.rfind('/') + 1:]]. *)
Definition last_component (s : string) : string :=
  last (split "/" s) EmptyString.

Definition basename (p : string) : string := last_component p.

(** [s.replace(old, new)] for a non-empty [old]: every occurrence, from the
    left, without overlap.  [skip] counts the characters of a matched
    occurrence that are still to be dropped. *)
Fixpoint replace_from (old new : string) (skip : nat) (s : string) : string :=
  match s with
  | EmptyString => EmptyString
  | String c s' =>
      match skip with
      | S k => replace_from old new k s'
      | O =>
          if prefix old s
          then new ++ replace_from old new (String.length old - 1) s'
          else String c (replace_from old new 0 s')
      end
  end.

Definition replace (old new s : string) : string := replace_from old new 0 s.

(** [os.path.join(a, b)] on POSIX. *)
Definition ends_with_slash (s : string) : bool :=
  match get (String.length s - 1) s with
  | Some c => Ascii.eqb c "/"
  | None => false
  end.

Definition path_join (a b : string) : string :=
  if prefix "/" b then b
  else if (String.eqb a "" || ends_with_slash a)%bool then a ++ b
  else a ++ "/" ++ b.

(** [s.rfind(c)] for a character, [None] for -1. *)
Fixpoint rfind (c : ascii) (s : string) : option nat :=
  match s with
  | EmptyString => None
  | String d s' =>
      match rfind c s' with
      | Some i => Some (S i)
      | None => if Ascii.eqb d c then Some 0 else None
      end
  end.

Fixpoint all_dots (s : string) : bool :=
  match s with
  | EmptyString => true
  | String c s' => (Ascii.eqb c "." && all_dots s')%bool
  end.

(** [os.path.splitext(p)]: split at the last dot that comes after the last
    slash, unless only dots precede it in the file name. *)
Definition splitext (p : string) : string * string :=
  match rfind "." p with
  | None => (p, "")
  | Some dotIndex =>
      let filenameIndex :=
        match rfind "/" p with Some sepIndex => S sepIndex | None => 0 end in
      if Nat.leb filenameIndex dotIndex
         && negb (all_dots (substring filenameIndex (dotIndex - filenameIndex) p))
      then (substring 0 dotIndex p,
            substring dotIndex (String.length p - dotIndex) p)
      else (p, "")
  end%bool.

(** [sep.join(l)]. *)
Fixpoint join (sep : string) (l : list string) : string :=
  match l with
  | [] => ""
  | [x] => x
  | x :: rest => x ++ sep ++ join sep rest
  end.

(** [needle in haystack], as a proposition. *)
Definition contains (haystack needle : string) : Prop :=
  exists before after, haystack = before ++ needle ++ after.

(** The same test, computed. *)
Fixpoint containsb (haystack needle : string) : bool :=
  (prefix needle haystack
   || match haystack with
      | EmptyString => false
      | String _ rest => containsb rest needle
      end)%bool.

(** ** Dictionaries

    A Python [dict] keeps its keys in the order of their first insertion and
    assigning to a key that is present keeps its place. *)
Section Dict.
Context {V : Type}.

Definition dict : Type := list (string * V).

Fixpoint dict_get (d : dict) (k : string) : option V :=
  match d with
  | [] => None
  | (k', v) :: rest => if String.eqb k' k then Some v else dict_get rest k
  end.

Fixpoint dict_set (d : dict) (k : string) (v : V) : dict :=
  match d with
  | [] => [(k, v)]
  | (k', v') :: rest =>
      if String.eqb k' k then (k', v) :: rest
      else (k', v') :: dict_set rest k v
  end.

Definition dict_mem (d : dict) (k : string) : bool :=
  match dict_get d k with Some _ => true | None => false end.
End Dict.

Arguments dict V : clear implicits.

(** ** Operations on JSON values *)

(** [bool(v)]. *)
Definition truthy (v : json) : bool :=
  match v with
  | JNull => false
  | JBool b => b
  | JNum n => negb (Z.eqb n 0)
  | JStr s => negb (String.eqb s "")
  | JArr items => match items with [] => false | _ => true end
  | JObj entries => match entries with [] => false | _ => true end
  end.

(** [d.get(k)]: only a dictionary has the method. *)
Definition py_get (d : json) (k : string) : result json :=
  match d with
  | JObj entries =>
      Return (match dict_get entries k with Some v => v | None => JNull end)
  | _ => Raise AttributeError
  end.

(** [d[k]] for a string key. *)
Definition py_getitem (d : json) (k : string) : result json :=
  match d with
  | JObj entries =>
      match dict_get entries k with
      | Some v => Return v
      | None => Raise (KeyError k)
      end
  | _ => Raise TypeError
  end.

(** [s != v] for a [str] on the left: only an equal [str] is equal. *)
Definition str_ne (s : string) (v : json) : bool :=
  match v with
  | JStr s' => negb (String.eqb s s')
  | _ => true
  end.

(** ** A sample folder

    Concrete instances of what the builder reads, used to run it. *)
Module Sample.

Definition lower_char (c : ascii) : ascii :=
  let n := nat_of_ascii c in
  if (Nat.leb 65 n && Nat.leb n 90)%bool then ascii_of_nat (n + 32) else c.

(** [str.lower] on ASCII text. *)
Fixpoint lower (s : string) : string :=
  match s with
  | EmptyString => EmptyString
  | String c s' => String (lower_char c) (lower s')
  end.

(** The characters up to the next single quote, and what follows it. *)
Fixpoint quoted_name (s : string) : option (string * string) :=
  match s with
  | EmptyString => None
  | String c s' =>
      if Ascii.eqb c "'" then Some (EmptyString, s')
      else match quoted_name s' with
           | Some (name, rest) => Some (String c name, rest)
           | None => None
           end
  end.

Fixpoint drop (n : nat) (s : string) : string :=
  match n, s with
  | S k, String _ s' => drop k s'
  | _, _ => s
  end.

(** An extractor for tags written [ref('name')]: the names, left to
    right. *)
Fixpoint findall_from (skip : nat) (s : string) : list string :=
  match s with
  | EmptyString => []
  | String _ s' =>
      match skip with
      | S k => findall_from k s'
      | O =>
          if prefix "ref('" s
          then match quoted_name (drop 5 s) with
               | Some (name, rest) =>
                   if (negb (String.eqb name "") && prefix ")" rest)%bool
                   then name :: findall_from (String.length name + 6) s'
                   else findall_from 0 s'
               | None => findall_from 0 s'
               end
          else findall_from 0 s'
      end
  end.

Definition findall (s : string) : list string := findall_from 0 s.

Definition py_str (v : json) : string :=
  match v with
  | JNull => "None"
  | JBool true => "True"
  | JBool false => "False"
  | _ => "<object>"
  end.

Definition definition (dataset_name table_name : string)
    (contract_address : json) : json :=
  JObj [("parser", JObj [("type", JStr "log");
                         ("contract_address", contract_address)]);
        ("table", JObj [("dataset_name", JStr dataset_name);
                        ("table_name", JStr table_name)])].

(** A folder of [(path, content)] files behind one glob pattern each. *)
Record folder : Type := mkFolder {
  json_pattern : string;
  json_files : list (string * json);
  sql_pattern : string;
  sql_files : list (string * string)
}.

Definition glob (f : folder) (pattern : string) : list string :=
  if String.eqb pattern (json_pattern f) then map fst (json_files f)
  else if String.eqb pattern (sql_pattern f) then map fst (sql_files f)
  else [].

Definition read_json_file (f : folder) (path : string) : json :=
  match dict_get (json_files f) path with
  | Some v => v
  | None => JNull
  end.

Definition read_file (f : folder) (path : string) : string :=
  match dict_get (sql_files f) path with
  | Some v => v
  | None => ""
  end.

(** Two tables, [B] reading the addresses [A] produced, and three views. *)
Definition good : folder :=
  mkFolder "defs/mydataset/*.json"
    [("defs/mydataset/A.json", definition "mydataset" "A" JNull);
     ("defs/mydataset/B.json",
      definition "mydataset" "B" (JStr "SELECT pool FROM ref('A')"))]
    "defs/mydataset/*.sql"
    [("defs/mydataset/v1.sql", "SELECT 1");
     ("defs/mydataset/v2.sql", "SELECT 2");
     ("defs/mydataset/v3.sql", "SELECT 3")].

(** A definition that declares another dataset. *)
Definition wrong_dataset : folder :=
  mkFolder "defs/mydataset/*.json"
    [("defs/mydataset/foo.json", definition "other" "foo" JNull)]
    "defs/mydataset/*.sql" [].

(** Two table names that differ only by case. *)
Definition clash : folder :=
  mkFolder "defs/mydataset/*.json"
    [("defs/mydataset/FOO.json", definition "mydataset" "FOO" JNull);
     ("defs/mydataset/Foo.json", definition "mydataset" "Foo" JNull)]
    "defs/mydataset/*.sql" [].

(** A reference to a table that the folder does not define. *)
Definition dangling : folder :=
  mkFolder "defs/mydataset/*.json"
    [("defs/mydataset/B.json",
      definition "mydataset" "B" (JStr "SELECT pool FROM ref('A')"))]
    "defs/mydataset/*.sql" [].

(** A definition that is a list, not an object. *)
Definition not_an_object : folder :=
  mkFolder "defs/mydataset/*.json"
    [("defs/mydataset/foo.json", JArr [JStr "foo"])]
    "defs/mydataset/*.sql" [].

(** A definition without a [table] section. *)
Definition no_table : folder :=
  mkFolder "defs/mydataset/*.json"
    [("defs/mydataset/foo.json",
      JObj [("parser", JObj [("contract_address", JNull)])])]
    "defs/mydataset/*.sql" [].

(** A [table] section without a [dataset_name]. *)
Definition no_dataset_name : folder :=
  mkFolder "defs/mydataset/*.json"
    [("defs/mydataset/foo.json",
      JObj [("table", JObj [("table_name", JStr "foo")])])]
    "defs/mydataset/*.sql" [].

(** A [table] section without a [table_name]. *)
Definition no_table_name : folder :=
  mkFolder "defs/mydataset/*.json"
    [("defs/mydataset/foo.json",
      JObj [("table", JObj [("dataset_name", JStr "mydataset")])])]
    "defs/mydataset/*.sql" [].

(** A table that is not named after its file. *)
Definition misnamed : folder :=
  mkFolder "defs/mydataset/*.json"
    [("defs/mydataset/foo.json", definition "mydataset" "bar" JNull)]
    "defs/mydataset/*.sql" [].

(** Views only. *)
Definition views_only : folder :=
  mkFolder "defs/mydataset/*.json" []
    "defs/mydataset/*.sql"
    [("defs/mydataset/v1.sql", "SELECT 1");
     ("defs/mydataset/v2.sql", "SELECT 2")].

(** A valid [table] section and no [parser] section. *)
Definition no_parser : folder :=
  mkFolder "defs/mydataset/*.json"
    [("defs/mydataset/foo.json",
      JObj [("table", JObj [("dataset_name", JStr "mydataset");
                            ("table_name", JStr "foo")])])]
    "defs/mydataset/*.sql" [].

(** A [contract_address] that is a number. *)
Definition bad_address : folder :=
  mkFolder "defs/mydataset/*.json"
    [("defs/mydataset/foo.json", definition "mydataset" "foo" (JNum 5))]
    "defs/mydataset/*.sql" [].

(** A table that refers to itself. *)
Definition self_reference : folder :=
  mkFolder "defs/mydataset/*.json"
    [("defs/mydataset/A.json",
      definition "mydataset" "A" (JStr "SELECT pool FROM ref('A')"))]
    "defs/mydataset/*.sql" [].

End Sample.

(** ** The workflow graph

    The callables handed to [PythonOperator] are closures; each constructor
    carries what the closure captures. *)
Inductive callable : Type :=
| raise_validation_error (validation_error : exn)
| parse_task (table_definition : json) (destination_project_id : string)
    (parse_all_partitions : option bool)
| create_view_task (dataset_name view_name sql destination_project_id : string).

(** Running a callable for the date [ds].  [raise_validation_error] raises
    the error it captured; the other two talk to the warehouse and have no
    outcome in this development. *)
Definition call (c : callable) (ds : string) : option (result unit) :=
  match c with
  | raise_validation_error validation_error => Some (Raise validation_error)
  | parse_task _ _ _ => None
  | create_view_task _ _ _ _ => None
  end.

(** The three operator classes the module instantiates, with the keyword
    arguments it passes (durations in minutes or seconds as noted). *)
Inductive operator : Type :=
| PythonOperator (task_id : string) (python_callable : callable)
    (execution_timeout_minutes : Z)
| BashOperator (task_id : string) (bash_command : string) (priority_weight : Z)
| ExternalTaskSensor (task_id external_dag_id external_task_id : string)
    (execution_delta_minutes priority_weight : Z) (mode : string)
    (retries poke_interval_seconds timeout_seconds : Z).

Definition task_id (op : operator) : string :=
  match op with
  | PythonOperator t _ _ => t
  | BashOperator t _ _ => t
  | ExternalTaskSensor t _ _ _ _ _ _ _ _ => t
  end.

(** An operator object is referred to by the position at which it was
    constructed in its DAG. *)
Abbreviation task_ref := nat (only parsing).

Record DAG : Type := mkDAG {
  dag_id : string;
  tasks : list operator;
  edges : list (task_ref * task_ref)
}.

Definition new_dag (id : string) : DAG := mkDAG id [] [].

(** Constructing an operator with [dag=dag]. *)
Definition add_task (dag : DAG) (op : operator) : task_ref * DAG :=
  (List.length (tasks dag),
   mkDAG (dag_id dag) (tasks dag ++ [op])%list (edges dag)).

(** [a >> b]. *)
Definition set_downstream (a b : task_ref) (dag : DAG) : DAG :=
  mkDAG (dag_id dag) (tasks dag) (edges dag ++ [(a, b)])%list.

(** [task.task_id] for a reference. *)
Definition task_id_of (dag : DAG) (t : task_ref) : string :=
  match nth_error (tasks dag) t with
  | Some op => task_id op
  | None => ""
  end.

(** The tasks directly upstream of [t]. *)
Definition upstream (dag : DAG) (t : task_ref) : list task_ref :=
  map fst (filter (fun e => Nat.eqb (snd e) t) (edges dag)).

Definition is_parse_task (op : operator) : bool :=
  match op with
  | PythonOperator _ (parse_task _ _ _) _ => true
  | _ => false
  end.

Definition is_view_task (op : operator) : bool :=
  match op with
  | PythonOperator _ (create_view_task _ _ _ _) _ => true
  | _ => false
  end.

Definition is_sensor (op : operator) : bool :=
  match op with
  | ExternalTaskSensor _ _ _ _ _ _ _ _ _ => true
  | _ => false
  end.

Definition is_checkpoint (op : operator) : bool :=
  match op with
  | BashOperator _ _ _ => true
  | _ => false
  end.

(** The constants of [build_parse_dag]. *)
Definition PARTITION_DAG_ID : string := "polygon_partition_dag".

(** Lines 142-152: the sensor on the partition DAG's [done] task.  The
    execution delta is 30 minutes, the poke interval [5 * 60] seconds and
    the timeout [60 * 60 * 30] seconds. *)
Definition wait_for_ethereum_load_dag_task : operator :=
  ExternalTaskSensor "wait_for_polygon_partition_dag" PARTITION_DAG_ID "done"
    30 0 "reschedule" 20 (5 * 60) (60 * 60 * 30).

(** Lines 166-171. *)
Definition checkpoint_task : operator :=
  BashOperator "parse_all_checkpoint" "echo parse_all_checkpoint" 1000.

(** Lines 79-85. *)
Definition validation_error_operator (validation_error : exn) : operator :=
  PythonOperator "validation_error" (raise_validation_error validation_error) 10.

Definition missing_table_message (dependency : string) : string :=
  "Table " ++ dependency
  ++ " is not found in the the dataset. Check your ref() in contract_address field.".

Section BuildParseDag.

(** [glob.glob]: the paths that match a pattern, in the order returned. *)
Variable glob : string -> list string.
(** [polygonetl_airflow.common.read_json_file] and [read_file]. *)
Variable read_json_file : string -> json.
Variable read_file : string -> string.
(** [polygonetl_airflow.parse.parse_logic.ref_regex.findall]. *)
Variable findall : string -> list string.
(** [str.lower]. *)
Variable lower : string -> string.
(** The built-in [str()] on a value that is not itself a [str]. *)
Variable py_str : json -> string.

(** A value interpolated into an f-string. *)
Definition format (v : json) : string :=
  match v with
  | JStr s => s
  | _ => py_str v
  end.

(** Lines 202-206. *)
Definition get_list_of_files (dataset_folder filter : string) : list string :=
  glob (path_join dataset_folder filter).

(** *** The validator, lines 209-242 *)

(** The body of the loop over the JSON files (lines 215-233): the checks
    on one file, and the lower-cased table name it contributes. *)
Definition validate_definition_file
    (dataset_folder_name json_file : string) : result string :=
  let file_name := replace ".json" "" (last_component json_file) in
  let table_definition := read_json_file json_file in
  table <- py_get table_definition "table" ;;
  if negb (truthy table)
  then Raise (ValueError ("table is empty in file " ++ json_file))
  else
    dataset_name <- py_get table "dataset_name" ;;
    if negb (truthy dataset_name)
    then Raise (ValueError ("dataset_name is empty in file " ++ json_file))
    else if str_ne dataset_folder_name dataset_name
    then Raise (ValueError
                  ("dataset_name " ++ format dataset_name
                   ++ " is not equal to dataset_folder_name "
                   ++ dataset_folder_name))
    else
      table_name <- py_get table "table_name" ;;
      if negb (truthy table_name)
      then Raise (ValueError ("table_name is empty in file " ++ json_file))
      else if str_ne file_name table_name
      then Raise (ValueError
                    ("file_name " ++ file_name
                     ++ " doest match the table_name " ++ format table_name))
      else match table_name with
           | JStr s => Return (lower s)
           | _ => Raise AttributeError
           end.

(** The loop of lines 214-233, appending to [all_lowercase_table_names]. *)
Fixpoint validate_each (dataset_folder_name : string)
    (json_files all_lowercase_table_names : list string)
    : result (list string) :=
  match json_files with
  | [] => Return all_lowercase_table_names
  | json_file :: rest =>
      name <- validate_definition_file dataset_folder_name json_file ;;
      validate_each dataset_folder_name rest
        (all_lowercase_table_names ++ [name])%list
  end.

(** Lines 235-237: [table_name_counts[table_name] += 1] on a
    [defaultdict] that starts every count at 0. *)
Definition increment (table_name_counts : dict nat) (table_name : string)
    : dict nat :=
  dict_set table_name_counts table_name
    (match dict_get table_name_counts table_name with
     | Some count => count
     | None => 0
     end + 1).

Definition count_table_names (all_lowercase_table_names : list string)
    : dict nat :=
  fold_left increment all_lowercase_table_names [].

(** Line 239. *)
Definition non_unique_table_names (all_lowercase_table_names : list string)
    : list string :=
  map fst (filter (fun item => Nat.ltb 1 (snd item))
             (count_table_names all_lowercase_table_names)).

Definition not_unique_message (names : list string) : string :=
  "The following table names are not unique " ++ join "," names.

Definition validate_definition_files (dataset_folder : string) : result unit :=
  let json_files := get_list_of_files dataset_folder "*.json" in
  let dataset_folder_name := last_component dataset_folder in
  all_lowercase_table_names <-
    validate_each dataset_folder_name json_files [] ;;
  let names := non_unique_table_names all_lowercase_table_names in
  if Nat.ltb 0 (List.length names)
  then Raise (ValueError (not_unique_message names))
  else Return tt.

(** *** The graph builder, lines 28-199 *)

Section Build.
Variable parse_destination_dataset_project_id : string.
Variable parse_all_partitions : option bool.

(** Lines 89-119. *)
Definition create_parse_task (dag : DAG) (table_definition : json)
    : result (task_ref * list string * DAG) :=
  table <- py_getitem table_definition "table" ;;
  table_name <- py_getitem table "table_name" ;;
  match table_name with
  | JStr name =>
      let '(parsing_operator, dag) :=
        add_task dag
          (PythonOperator name
             (parse_task table_definition
                parse_destination_dataset_project_id parse_all_partitions)
             60) in
      parser <- py_getitem table_definition "parser" ;;
      contract_address <- py_getitem parser "contract_address" ;;
      ref_dependencies <-
        match contract_address with
        | JNull => Return []
        | JStr s => Return (findall s)
        | _ => Raise TypeError
        end ;;
      Return (parsing_operator, ref_dependencies, dag)
  | _ => Raise TypeError
  end.

(** Lines 121-140. *)
Definition create_add_view_task (dag : DAG)
    (dataset_name view_name sql : string) : task_ref * DAG :=
  add_task dag
    (PythonOperator ("create_view_" ++ view_name)
       (create_view_task dataset_name view_name sql
          parse_destination_dataset_project_id)
       10).

(** The loop of lines 159-164; the state is the DAG and the two
    dictionaries. *)
Fixpoint create_parse_tasks (sensor : task_ref) (json_files : list string)
    (dag : DAG) (all_parse_tasks : dict task_ref)
    (task_dependencies : dict (list string))
    : result (DAG * dict task_ref * dict (list string)) :=
  match json_files with
  | [] => Return (dag, all_parse_tasks, task_dependencies)
  | json_file :: rest =>
      let table_definition := read_json_file json_file in
      '(task, dependencies, dag) <- create_parse_task dag table_definition ;;
      let dag := set_downstream sensor task dag in
      create_parse_tasks sensor rest dag
        (dict_set all_parse_tasks (task_id_of dag task) task)
        (dict_set task_dependencies (task_id_of dag task) dependencies)
  end.

(** [all_parse_tasks[task]]. *)
Definition lookup_task (all_parse_tasks : dict task_ref) (task : string)
    : result task_ref :=
  match dict_get all_parse_tasks task with
  | Some t => Return t
  | None => Raise (KeyError task)
  end.

(** The inner loop, lines 174-179. *)
Fixpoint wire_dependencies (all_parse_tasks : dict task_ref)
    (task : string) (dependencies : list string) (dag : DAG)
    : result DAG :=
  match dependencies with
  | [] => Return dag
  | dependency :: rest =>
      if negb (dict_mem all_parse_tasks dependency)
      then Raise (ValueError (missing_table_message dependency))
      else
        up <- lookup_task all_parse_tasks dependency ;;
        down <- lookup_task all_parse_tasks task ;;
        wire_dependencies all_parse_tasks task rest
          (set_downstream up down dag)
  end.

(** The outer loop, lines 173-181. *)
Fixpoint wire_tasks (all_parse_tasks : dict task_ref)
    (checkpoint : task_ref) (items : list (string * list string))
    (dag : DAG) : result DAG :=
  match items with
  | [] => Return dag
  | (task, dependencies) :: rest =>
      dag <- wire_dependencies all_parse_tasks task dependencies dag ;;
      t <- lookup_task all_parse_tasks task ;;
      wire_tasks all_parse_tasks checkpoint rest
        (set_downstream t checkpoint dag)
  end.

(** The body of the loop of lines 191-197. *)
Definition add_view (full_dataset_name : string) (checkpoint : task_ref)
    (dag : DAG) (sql_file : string) : DAG :=
  let sql := read_file sql_file in
  let base_name := basename sql_file in
  let view_name := fst (splitext base_name) in
  let '(view, dag) :=
    create_add_view_task dag full_dataset_name view_name sql in
  set_downstream checkpoint view dag.

Definition build_parse_dag (dag_id dataset_folder : string) : result DAG :=
  let dag_id :=
    match parse_all_partitions with
    | Some true => dag_id ++ "_FULL"
    | _ => dag_id
    end in
  let dag := new_dag dag_id in
  match validate_definition_files dataset_folder with
  | Raise (ValueError msg) =>
      let '(_, dag) :=
        add_task dag (validation_error_operator (ValueError msg)) in
      Return dag
  | Raise e => Raise e
  | Return _ =>
      let '(sensor, dag) := add_task dag wait_for_ethereum_load_dag_task in
      let json_files := get_list_of_files dataset_folder "*.json" in
      '(dag, all_parse_tasks, task_dependencies) <-
        create_parse_tasks sensor json_files dag [] [] ;;
      let '(checkpoint, dag) := add_task dag checkpoint_task in
      dag <- wire_tasks all_parse_tasks checkpoint task_dependencies dag ;;
      let sql_files := get_list_of_files dataset_folder "*.sql" in
      let dataset_name := basename dataset_folder in
      let full_dataset_name := "polygon_" ++ dataset_name in
      Return (fold_left (add_view full_dataset_name checkpoint) sql_files dag)
  end.

(** *** Vocabulary for the statements *)

(** Line 215: the name a JSON file must give its table. *)
Definition file_name_of (json_file : string) : string :=
  replace ".json" "" (last_component json_file).

(** [table_definition['table']['table_name']] when it is a [str]. *)
Definition table_name_of (table_definition : json) : result string :=
  table <- py_getitem table_definition "table" ;;
  table_name <- py_getitem table "table_name" ;;
  match table_name with
  | JStr name => Return name
  | _ => Raise TypeError
  end.

(** Lines 114-118: the dependencies a definition declares. *)
Definition dependencies_of (table_definition : json)
    : result (list string) :=
  parser <- py_getitem table_definition "parser" ;;
  contract_address <- py_getitem parser "contract_address" ;;
  match contract_address with
  | JNull => Return []
  | JStr s => Return (findall s)
  | _ => Raise TypeError
  end.

(** [table_definition['parser']['contract_address']]. *)
Definition contract_address_of (table_definition : json) : result json :=
  parser <- py_getitem table_definition "parser" ;;
  py_getitem parser "contract_address".

(** The [table.dataset_name] a definition declares, if it has one. *)
Definition declared_dataset_name (table_definition : json) : option json :=
  match table_definition with
  | JObj entries =>
      match dict_get entries "table" with
      | Some (JObj table) => dict_get table "dataset_name"
      | _ => None
      end
  | _ => None
  end.

(** The operator [create_parse_task] constructs for a file. *)
Definition parsing_operator (json_file : string) : operator :=
  PythonOperator (file_name_of json_file)
    (parse_task (read_json_file json_file)
       parse_destination_dataset_project_id parse_all_partitions)
    60.

(** The operator [create_add_view_task] constructs for a file. *)
Definition view_name_of (sql_file : string) : string :=
  fst (splitext (basename sql_file)).

Definition create_view_operator (dataset_folder sql_file : string)
    : operator :=
  PythonOperator ("create_view_" ++ view_name_of sql_file)
    (create_view_task ("polygon_" ++ basename dataset_folder)
       (view_name_of sql_file) (read_file sql_file)
       parse_destination_dataset_project_id)
    10.

(** The graph returned when validation raised [validation_error]. *)
Definition placeholder_dag (id : string) (validation_error : exn) : DAG :=
  mkDAG id [validation_error_operator validation_error] [].

(** The identifier the DAG gets, lines 40-41. *)
Definition effective_dag_id (id : string) : string :=
  match parse_all_partitions with
  | Some true => id ++ "_FULL"
  | _ => id
  end.

(** A file passes the per-file checks of the validator. *)
Definition passes_file_checks (dataset_folder json_file : string) : Prop :=
  exists name,
    validate_definition_file (last_component dataset_folder) json_file
    = Return name.

Definition count_of (d : dict nat) (k : string) : nat :=
  match dict_get d k with Some c => c | None => 0 end.

(** Assigning a list of entries, in order. *)
Definition set_all {V : Type} (d : dict V) (kvs : list (string * V))
    : dict V :=
  fold_left (fun d kv => dict_set d (fst kv) (snd kv)) kvs d.

(** [all_parse_tasks[k]], when [k] is known to be a key. *)
Definition ref_of (all_parse_tasks : dict task_ref) (k : string) : task_ref :=
  match dict_get all_parse_tasks k with Some t => t | None => 0 end.

(** The edges lines 173-181 add for one entry of [task_dependencies]. *)
Definition wiring (all_parse_tasks : dict task_ref) (checkpoint : task_ref)
    (item : string * list string) : list (task_ref * task_ref) :=
  (map (fun dependency => (ref_of all_parse_tasks dependency,
                           ref_of all_parse_tasks (fst item)))
     (snd item)
   ++ [(ref_of all_parse_tasks (fst item), checkpoint)])%list.

(** The state with which the loop of lines 159-164 ends. *)
Definition after_parse_tasks (sensor : task_ref) (json_files : list string)
    (dependencies : list (list string)) (dag : DAG)
    (all_parse_tasks : dict task_ref)
    (task_dependencies : dict (list string))
    : DAG * dict task_ref * dict (list string) :=
  let names := map file_name_of json_files in
  let refs := seq (List.length (tasks dag)) (List.length json_files) in
  (mkDAG (dag_id dag)
     (tasks dag ++ map parsing_operator json_files)%list
     (edges dag ++ map (fun t => (sensor, t)) refs)%list,
   set_all all_parse_tasks (combine names refs),
   set_all task_dependencies (combine names dependencies)).

(** Every key and every dependency of [items] is a key of
    [all_parse_tasks]. *)
Definition resolved (all_parse_tasks : dict task_ref)
    (item : string * list string) : Prop :=
  Forall (fun d => In d (map fst all_parse_tasks)) (snd item).

(** The graph [build_parse_dag] returns for a validated folder whose
    files declare the dependencies [dependencies]: the sensor, one parse
    task per JSON file, the checkpoint, one view task per SQL file; the
    sensor edges, the edges of the wiring loop, the view edges. *)
Definition expected_dag (id dataset_folder : string)
    (dependencies : list (list string)) : DAG :=
  let json_files := get_list_of_files dataset_folder "*.json" in
  let sql_files := get_list_of_files dataset_folder "*.sql" in
  let n := List.length json_files in
  let names := map file_name_of json_files in
  let all_parse_tasks := combine names (seq 1 n) in
  mkDAG (effective_dag_id id)
    (wait_for_ethereum_load_dag_task
     :: map parsing_operator json_files
     ++ checkpoint_task
     :: map (create_view_operator dataset_folder) sql_files)%list
    (map (fun t => (0, t)) (seq 1 n)
     ++ flat_map (wiring all_parse_tasks (S n)) (combine names dependencies)
     ++ map (fun t => (S n, t)) (seq (S (S n)) (List.length sql_files)))%list.

(** The folder has a definition of table [name]. *)
Definition defines_table (dataset_folder name : string) : Prop :=
  exists json_file,
    In json_file (get_list_of_files dataset_folder "*.json")
    /\ table_name_of (read_json_file json_file) = Return name.

(** The [contract_address] of [json_file] holds a reference tag that
    names [dependency]. *)
Definition references (dataset_folder json_file dependency : string) : Prop :=
  In json_file (get_list_of_files dataset_folder "*.json")
  /\ exists s,
       contract_address_of (read_json_file json_file) = Return (JStr s)
       /\ In dependency (findall s).

(** The [parser.contract_address] of every definition is [null] or a
    string, so that lines 114-118 yield a list of dependencies. *)
Definition parsers_well_formed (dataset_folder : string) : Prop :=
  Forall (fun f => exists deps,
              dependencies_of (read_json_file f) = Return deps)
    (get_list_of_files dataset_folder "*.json").

(** A definition that follows the naming rules of lines 218-232: a
    [table] section whose [dataset_name] is the name of the folder and
    whose [table_name] is the name of the file, both present. *)
Definition follows_naming_rules (dataset_folder json_file : string) : Prop :=
  exists entries table,
    read_json_file json_file = JObj entries
    /\ dict_get entries "table" = Some (JObj table)
    /\ dict_get table "dataset_name"
       = Some (JStr (last_component dataset_folder))
    /\ last_component dataset_folder <> ""
    /\ dict_get table "table_name" = Some (JStr (file_name_of json_file))
    /\ file_name_of json_file <> "".

Definition dataset_mismatch_message (dataset_name : json)
    (dataset_folder_name : string) : string :=
  "dataset_name " ++ format dataset_name
  ++ " is not equal to dataset_folder_name " ++ dataset_folder_name.

(** ** Dictionaries *)

Lemma dict_get_set {V : Type} (d : dict V) (k k' : string) (v : V) :
  dict_get (dict_set d k v) k'
  = if String.eqb k k' then Some v else dict_get d k'.
Proof.
  induction d as [|[k0 v0] d IH]; simpl.
  - reflexivity.
  - destruct (String.eqb k0 k) eqn:E0; simpl.
    + apply String.eqb_eq in E0; subst k0.
      destruct (String.eqb k k'); reflexivity.
    + destruct (String.eqb k0 k') eqn:E1.
      * apply String.eqb_eq in E1; subst k0.
        rewrite String.eqb_sym in E0. rewrite E0. reflexivity.
      * exact IH.
Qed.

Lemma dict_get_None {V : Type} (d : dict V) (k : string) :
  dict_get d k = None <-> ~ In k (map fst d).
Proof.
  only_goal.
  induction d as [|[k0 v0] d IH]; simpl.
  - tauto.
  - destruct (String.eqb k0 k) eqn:E.
    + apply String.eqb_eq in E. split; [discriminate | tauto].
    + apply String.eqb_neq in E. rewrite IH. tauto.
Qed.

Lemma dict_get_In {V : Type} (d : dict V) (k : string) (v : V) :
  dict_get d k = Some v -> In (k, v) d.
Proof.
  induction d as [|[k0 v0] d IH]; simpl; [discriminate|].
  destruct (String.eqb k0 k) eqn:E.
  - apply String.eqb_eq in E. intros [= ->]. left. now subst.
  - auto.
Qed.

Lemma In_dict_get {V : Type} (d : dict V) (k : string) (v : V) :
  NoDup (map fst d) -> In (k, v) d -> dict_get d k = Some v.
Proof.
  only_goal.
  induction d as [|[k0 v0] d IH]; simpl; [tauto|].
  intros ND [E | Hin]; inversion ND as [|? ? Hn ND']; subst.
  - injection E as -> ->. now rewrite String.eqb_refl.
  - destruct (String.eqb k0 k) eqn:E.
    + apply String.eqb_eq in E; subst k0.
      exfalso. apply Hn. apply (in_map fst) in Hin. exact Hin.
    + auto.
Qed.

Lemma dict_set_fresh {V : Type} (d : dict V) (k : string) (v : V) :
  ~ In k (map fst d) -> dict_set d k v = (d ++ [(k, v)])%list.
Proof.
  only_goal.
  induction d as [|[k0 v0] d IH]; simpl; [reflexivity|].
  intros Hn. destruct (String.eqb k0 k) eqn:E.
  - apply String.eqb_eq in E. tauto.
  - rewrite IH by tauto. reflexivity.
Qed.

Lemma dict_set_keys {V : Type} (d : dict V) (k : string) (v : V) :
  map fst (dict_set d k v)
  = if dict_mem d k then map fst d else (map fst d ++ [k])%list.
Proof.
  unfold dict_mem. induction d as [|[k0 v0] d IH]; simpl; [reflexivity|].
  destruct (String.eqb k0 k) eqn:E; simpl.
  - reflexivity.
  - rewrite IH. destruct (dict_get d k); reflexivity.
Qed.

Lemma dict_mem_In {V : Type} (d : dict V) (k : string) :
  dict_mem d k = true <-> In k (map fst d).
Proof.
  only_goal.
  unfold dict_mem. destruct (dict_get d k) eqn:E.
  - split; [intros _ | reflexivity].
    apply dict_get_In in E. apply (in_map fst) in E. exact E.
  - apply dict_get_None in E. split; [discriminate | tauto].
Qed.

(** ** Counting table names *)

Lemma increment_count (d : dict nat) (k k' : string) :
  count_of (increment d k) k'
  = count_of d k' + (if string_dec k k' then 1 else 0).
Proof.
  unfold count_of, increment. rewrite dict_get_set.
  destruct (string_dec k k') as [->|Hne].
  - rewrite String.eqb_refl. reflexivity.
  - apply String.eqb_neq in Hne. rewrite Hne. lia.
Qed.

Lemma increment_keys (d : dict nat) (k k' : string) :
  In k' (map fst (increment d k)) <-> In k' (map fst d) \/ k = k'.
Proof.
  only_goal.
  unfold increment. rewrite dict_set_keys.
  destruct (dict_mem d k) eqn:E.
  - apply dict_mem_In in E. split; [tauto|]. intros [H | <-]; assumption.
  - rewrite in_app_iff. simpl. tauto.
Qed.

Lemma increment_NoDup (d : dict nat) (k : string) :
  NoDup (map fst d) -> NoDup (map fst (increment d k)).
Proof.
  only_goal.
  intros ND. unfold increment. rewrite dict_set_keys.
  destruct (dict_mem d k) eqn:E; [exact ND|].
  apply NoDup_app; [exact ND | repeat constructor; simpl; tauto |].
  intros x Hx [<- | []].
  apply dict_mem_In in Hx. congruence.
Qed.

Lemma fold_increment (l : list string) :
  forall d : dict nat,
    NoDup (map fst d) ->
    let d' := fold_left increment l d in
    NoDup (map fst d')
    /\ (forall k, count_of d' k = count_of d k + count_occ string_dec l k)
    /\ (forall k, In k (map fst d') <-> In k (map fst d) \/ In k l).
Proof.
  only_goal.
  induction l as [|x l IH]; intros d ND; simpl.
  - split; [exact ND|]. split; intros k; [lia | tauto].
  - destruct (IH (increment d x) (increment_NoDup d x ND)) as (ND' & Hc & Hk).
    split; [exact ND'|]. split; intros k.
    + rewrite Hc, increment_count.
      destruct (string_dec x k); lia.
    + rewrite Hk, increment_keys. tauto.
Qed.

Lemma NoDup_filter_keys {V : Type} (p : string * V -> bool) (d : dict V) :
  NoDup (map fst d) -> NoDup (map fst (filter p d)).
Proof.
  induction d as [|[k v] d IH]; simpl; intros ND; [constructor|].
  inversion ND as [|? ? Hn ND']; subst.
  destruct (p (k, v)); simpl; auto.
  constructor; auto.
  intros Hin. apply Hn. apply in_map_iff in Hin as ([k' v'] & E & Hin).
  simpl in E; subst k'. apply filter_In in Hin as [Hin _].
  apply (in_map fst) in Hin. exact Hin.
Qed.

(** The names reported are those that occur more than once, each of
    them once. *)
Lemma non_unique_table_names_In (l : list string) (k : string) :
  In k (non_unique_table_names l) <-> 1 < count_occ string_dec l k.
Proof.
  only_goal.
  unfold non_unique_table_names, count_table_names.
  destruct (fold_increment l [] (NoDup_nil _)) as (ND & Hc & Hk).
  simpl in *. set (d := fold_left increment l []) in *.
  rewrite in_map_iff. split.
  - intros ([k' c] & E & Hin). simpl in E; subst k'.
    apply filter_In in Hin as [Hin Hlt]. simpl in Hlt.
    apply Nat.ltb_lt in Hlt.
    apply (In_dict_get _ _ _ ND) in Hin.
    specialize (Hc k). unfold count_of in Hc. rewrite Hin in Hc.
    simpl in Hc. lia.
  - intros Hlt.
    assert (Hin : In k (map fst d)).
    { apply Hk. right. apply (count_occ_In string_dec). lia. }
    destruct (dict_get d k) as [c|] eqn:E.
    + exists (k, c). split; [reflexivity|].
      apply filter_In. split; [now apply dict_get_In|].
      simpl. apply Nat.ltb_lt.
      specialize (Hc k). unfold count_of in Hc. rewrite E in Hc.
      simpl in Hc. lia.
    + apply dict_get_None in E. tauto.
Qed.

Lemma non_unique_table_names_NoDup (l : list string) :
  NoDup (non_unique_table_names l).
Proof.
  unfold non_unique_table_names, count_table_names.
  apply NoDup_filter_keys.
  apply (fold_increment l [] (NoDup_nil _)).
Qed.

Lemma non_unique_table_names_nil (l : list string) :
  non_unique_table_names l = [] <-> NoDup l.
Proof.
  rewrite (NoDup_count_occ string_dec). split.
  - intros E x. destruct (le_lt_dec (count_occ string_dec l x) 1) as [H|H];
      [exact H|].
    apply non_unique_table_names_In in H. rewrite E in H. destruct H.
  - intros H. destruct (non_unique_table_names l) as [|x r] eqn:E;
      [reflexivity|].
    assert (Hx : In x (non_unique_table_names l)) by (rewrite E; now left).
    apply non_unique_table_names_In in Hx. specialize (H x). lia.
Qed.

(** ** The validator *)

Lemma str_ne_false (s : string) (v : json) :
  str_ne s v = false -> v = JStr s.
Proof.
  destruct v; simpl; try discriminate.
  intros H. apply negb_false_iff, String.eqb_eq in H. now subst.
Qed.

Lemma truthy_JStr (s : string) : truthy (JStr s) = true <-> s <> "".
Proof.
  simpl. rewrite negb_true_iff. apply String.eqb_neq.
Qed.

(** What a file that passes the checks of lines 215-233 looks like. *)
Lemma validate_definition_file_inv (folder_name json_file name : string) :
  validate_definition_file folder_name json_file = Return name ->
  exists entries table,
    read_json_file json_file = JObj entries
    /\ dict_get entries "table" = Some (JObj table)
    /\ dict_get table "dataset_name" = Some (JStr folder_name)
    /\ folder_name <> ""
    /\ dict_get table "table_name" = Some (JStr (file_name_of json_file))
    /\ file_name_of json_file <> ""
    /\ name = lower (file_name_of json_file).
Proof.
  unfold validate_definition_file, file_name_of.
  set (file_name := replace ".json" "" (last_component json_file)).
  destruct (read_json_file json_file) as [| | | | |entries];
    simpl; try discriminate.
  destruct (dict_get entries "table") as [table|] eqn:Gt; simpl;
    [|discriminate].
  destruct (truthy table) eqn:Tt; simpl; [|discriminate].
  destruct table as [| | | | |tbl]; simpl; try discriminate.
  destruct (dict_get tbl "dataset_name") as [dn|] eqn:Gd; simpl;
    [|discriminate].
  destruct (truthy dn) eqn:Td; simpl; [|discriminate].
  destruct (str_ne folder_name dn) eqn:Nd; [discriminate|].
  apply str_ne_false in Nd. subst dn.
  destruct (dict_get tbl "table_name") as [tn|] eqn:Gn; simpl;
    [|discriminate].
  destruct (truthy tn) eqn:Tn; simpl; [|discriminate].
  destruct (str_ne file_name tn) eqn:Nn; [discriminate|].
  apply str_ne_false in Nn. subst tn.
  intros H. injection H as E. subst name.
  exists entries, tbl. repeat split; auto.
  - now apply truthy_JStr.
  - now apply truthy_JStr.
Qed.

(** Conversely, such a file passes. *)
Lemma validate_definition_file_ok
    (folder_name json_file : string) (entries table : list (string * json)) :
  read_json_file json_file = JObj entries ->
  dict_get entries "table" = Some (JObj table) ->
  dict_get table "dataset_name" = Some (JStr folder_name) ->
  folder_name <> "" ->
  dict_get table "table_name" = Some (JStr (file_name_of json_file)) ->
  file_name_of json_file <> "" ->
  validate_definition_file folder_name json_file
  = Return (lower (file_name_of json_file)).
Proof.
  intros Er Et Ed Hf En Hn.
  assert (Hne : table <> []) by (intros ->; discriminate).
  unfold validate_definition_file. fold (file_name_of json_file).
  rewrite Er. simpl. rewrite Et. simpl.
  destruct table as [|e table']; [congruence|].
  cbv beta iota. rewrite Ed.
  apply truthy_JStr in Hf as Tf. apply truthy_JStr in Hn as Tn.
  cbn [bind]. rewrite Tf. cbn [negb str_ne].
  rewrite String.eqb_refl. cbn [negb]. rewrite En.
  rewrite Tn. cbn [negb str_ne]. rewrite String.eqb_refl. reflexivity.
Qed.

Lemma validate_each_ok (folder_name : string) (json_files : list string) :
  forall acc,
    Forall (fun f => exists n, validate_definition_file folder_name f
                               = Return n) json_files ->
    validate_each folder_name json_files acc
    = Return (acc ++ map (fun f => lower (file_name_of f)) json_files)%list.
Proof.
  induction json_files as [|f fs IH]; intros acc HF; simpl.
  - now rewrite app_nil_r.
  - inversion HF as [|? ? [n Hn] HF']; subst.
    rewrite Hn. simpl.
    apply validate_definition_file_inv in Hn as (? & ? & _ & _ & _ & _ & _ & _ & ->).
    rewrite IH by assumption. now rewrite <- app_assoc.
Qed.

Lemma validate_each_inv (folder_name : string) (json_files : list string) :
  forall acc names,
    validate_each folder_name json_files acc = Return names ->
    Forall (fun f => exists n, validate_definition_file folder_name f
                               = Return n) json_files.
Proof.
  induction json_files as [|f fs IH]; intros acc names H; simpl in H.
  - constructor.
  - destruct (validate_definition_file folder_name f) as [n|e] eqn:E;
      simpl in H; [|discriminate].
    constructor; [now exists n | eauto].
Qed.

(** The validator fails fast: the first file that raises decides. *)
Lemma validate_each_first_error (folder_name : string)
    (before after : list string) (json_file : string) (e : exn) :
  forall acc,
    Forall (fun f => exists n, validate_definition_file folder_name f
                               = Return n) before ->
    validate_definition_file folder_name json_file = Raise e ->
    validate_each folder_name (before ++ json_file :: after)%list acc
    = Raise e.
Proof.
  induction before as [|f fs IH]; intros acc HF He; simpl.
  - now rewrite He.
  - inversion HF as [|? ? [n Hn] HF']; subst.
    rewrite Hn. simpl. now apply IH.
Qed.

(** Validation succeeds exactly when every file passes its checks and
    the lower-cased names are pairwise distinct. *)
Lemma validate_definition_files_Return (dataset_folder : string) :
  validate_definition_files dataset_folder = Return tt
  <-> Forall (passes_file_checks dataset_folder)
        (get_list_of_files dataset_folder "*.json")
      /\ NoDup (map (fun f => lower (file_name_of f))
                  (get_list_of_files dataset_folder "*.json")).
Proof.
  unfold validate_definition_files, passes_file_checks.
  set (files := get_list_of_files dataset_folder "*.json").
  set (folder_name := last_component dataset_folder).
  split.
  - destruct (validate_each folder_name files []) as [names|e] eqn:E;
      simpl; [|discriminate].
    pose proof (validate_each_inv _ _ _ _ E) as HF.
    rewrite (validate_each_ok _ _ _ HF) in E. simpl in E.
    injection E as <-.
    destruct (non_unique_table_names _) as [|x r] eqn:En; simpl;
      [|discriminate].
    intros _. split; [exact HF|].
    now apply non_unique_table_names_nil.
  - intros [HF ND]. rewrite (validate_each_ok _ _ _ HF). simpl.
    apply non_unique_table_names_nil in ND. rewrite ND. reflexivity.
Qed.

(** ** The graph builder, loop by loop *)

Lemma set_all_fresh {V : Type} (kvs : list (string * V)) :
  forall d : dict V,
    NoDup (map fst kvs) ->
    (forall k, In k (map fst kvs) -> ~ In k (map fst d)) ->
    set_all d kvs = (d ++ kvs)%list.
Proof.
  only_goal.
  unfold set_all.
  induction kvs as [|[k v] kvs IH]; intros d ND Hd; simpl.
  - now rewrite app_nil_r.
  - inversion ND as [|? ? Hn ND']; subst.
    rewrite dict_set_fresh by (apply Hd; now left).
    rewrite IH; [now rewrite <- app_assoc | exact ND' |].
    intros k' Hk'. rewrite map_app, in_app_iff. simpl.
    intros [H | [<- | []]]; [|tauto].
    apply (Hd k'); [now right | exact H].
Qed.

Lemma create_parse_task_eq (dag : DAG) (table_definition : json) :
  create_parse_task dag table_definition
  = (name <- table_name_of table_definition ;;
     dependencies <- dependencies_of table_definition ;;
     Return (List.length (tasks dag), dependencies,
             mkDAG (dag_id dag)
               (tasks dag
                ++ [PythonOperator name
                      (parse_task table_definition
                         parse_destination_dataset_project_id
                         parse_all_partitions) 60])%list
               (edges dag))).
Proof.
  unfold create_parse_task, table_name_of, dependencies_of.
  destruct (py_getitem table_definition "table") as [table|]; simpl;
    [|reflexivity].
  destruct (py_getitem table "table_name") as [[| | |name| |]|]; simpl;
    try reflexivity.
  destruct (py_getitem table_definition "parser") as [parser|]; simpl;
    [|reflexivity].
  destruct (py_getitem parser "contract_address") as [[| | |s| |]|]; simpl;
    reflexivity.
Qed.

Lemma task_id_of_new (id : string) (ts : list operator) (op : operator)
    (es : list (task_ref * task_ref)) :
  task_id_of (mkDAG id (ts ++ [op])%list es) (List.length ts) = task_id op.
Proof.
  unfold task_id_of. simpl.
  rewrite nth_error_app2, Nat.sub_diag by lia. reflexivity.
Qed.

Lemma create_parse_tasks_Return (sensor : task_ref)
    (json_files : list string) :
  forall dependencies dag all_parse_tasks task_dependencies,
    Forall (fun f => table_name_of (read_json_file f)
                     = Return (file_name_of f)) json_files ->
    Forall2 (fun f deps => dependencies_of (read_json_file f) = Return deps)
      json_files dependencies ->
    create_parse_tasks sensor json_files dag all_parse_tasks
      task_dependencies
    = Return (after_parse_tasks sensor json_files dependencies dag
                all_parse_tasks task_dependencies).
Proof.
  induction json_files as [|f fs IH];
    intros depss dag apt td HN HD; inversion HD; subst.
  - unfold after_parse_tasks. destruct dag. simpl.
    now rewrite !app_nil_r.
  - inversion HN; subst.
    cbn [create_parse_tasks]. rewrite create_parse_task_eq.
    match goal with H : table_name_of _ = _ |- _ => rewrite H end.
    match goal with H : dependencies_of _ = _ |- _ => rewrite H end.
    cbn [bind]. unfold set_downstream. cbn [dag_id tasks edges].
    rewrite task_id_of_new. cbn [task_id].
    rewrite IH with (dependencies := l') by assumption.
    unfold after_parse_tasks. cbn [dag_id tasks edges map List.length seq combine].
    rewrite length_app. cbn [List.length]. rewrite Nat.add_1_r.
    rewrite <- !app_assoc. reflexivity.
Qed.

Lemma create_parse_tasks_inv (sensor : task_ref) (json_files : list string) :
  forall dag all_parse_tasks task_dependencies r,
    create_parse_tasks sensor json_files dag all_parse_tasks
      task_dependencies = Return r ->
    exists dependencies,
      Forall2 (fun f deps => dependencies_of (read_json_file f) = Return deps)
        json_files dependencies.
Proof.
  induction json_files as [|f fs IH]; intros dag apt td r H.
  - exists []. constructor.
  - cbn [create_parse_tasks] in H. rewrite create_parse_task_eq in H.
    destruct (table_name_of (read_json_file f)) as [name|]; simpl in H;
      [|discriminate].
    destruct (dependencies_of (read_json_file f)) as [deps|] eqn:E;
      simpl in H; [|discriminate].
    apply IH in H as [depss HF].
    exists (deps :: depss). now constructor.
Qed.

Lemma lookup_task_Some (all_parse_tasks : dict task_ref) (k : string) :
  In k (map fst all_parse_tasks) ->
  lookup_task all_parse_tasks k = Return (ref_of all_parse_tasks k)
  /\ dict_mem all_parse_tasks k = true.
Proof.
  only_goal.
  intros Hin. unfold lookup_task, ref_of, dict_mem.
  destruct (dict_get all_parse_tasks k) eqn:E; [now split|].
  apply dict_get_None in E. tauto.
Qed.

Lemma wire_dependencies_Return (all_parse_tasks : dict task_ref)
    (task : string) (dependencies : list string) :
  forall dag,
    In task (map fst all_parse_tasks) ->
    Forall (fun d => In d (map fst all_parse_tasks)) dependencies ->
    wire_dependencies all_parse_tasks task dependencies dag
    = Return (mkDAG (dag_id dag) (tasks dag)
                (edges dag
                 ++ map (fun d => (ref_of all_parse_tasks d,
                                   ref_of all_parse_tasks task))
                      dependencies)%list).
Proof.
  induction dependencies as [|d ds IH]; intros dag Ht HF; simpl.
  - rewrite app_nil_r. now destruct dag.
  - inversion HF as [|? ? Hd HF']; subst.
    destruct (lookup_task_Some _ _ Hd) as [-> ->].
    destruct (lookup_task_Some _ _ Ht) as [-> _]. simpl.
    rewrite IH by assumption. simpl. now rewrite <- app_assoc.
Qed.

Lemma wire_dependencies_Raise (all_parse_tasks : dict task_ref)
    (task : string) (dependencies : list string) :
  forall dag,
    In task (map fst all_parse_tasks) ->
    Exists (fun d => ~ In d (map fst all_parse_tasks)) dependencies ->
    exists d,
      In d dependencies
      /\ ~ In d (map fst all_parse_tasks)
      /\ wire_dependencies all_parse_tasks task dependencies dag
         = Raise (ValueError (missing_table_message d)).
Proof.
  only_goal.
  induction dependencies as [|d ds IH]; intros dag Ht HE;
    [inversion HE|].
  simpl. destruct (dict_mem all_parse_tasks d) eqn:Em; simpl.
  - apply dict_mem_In in Em.
    destruct (lookup_task_Some _ _ Em) as [-> _].
    destruct (lookup_task_Some _ _ Ht) as [-> _]. simpl.
    inversion HE as [? ? Hd | ? ? HE']; subst; [tauto|].
    destruct (IH (set_downstream (ref_of all_parse_tasks d)
                    (ref_of all_parse_tasks task) dag) Ht HE')
      as (d' & Hin & Hn & E).
    exists d'. auto.
  - exists d. repeat split; auto.
    intros Hin. apply dict_mem_In in Hin. congruence.
Qed.

Lemma resolved_dec (all_parse_tasks : dict task_ref)
    (item : string * list string) :
  {resolved all_parse_tasks item}
  + {Exists (fun d => ~ In d (map fst all_parse_tasks)) (snd item)}.
Proof.
  apply Forall_Exists_dec. intros d.
  apply (in_dec string_dec).
Qed.

Lemma wire_tasks_Return (all_parse_tasks : dict task_ref)
    (checkpoint : task_ref) (items : list (string * list string)) :
  forall dag,
    Forall (fun item => In (fst item) (map fst all_parse_tasks)) items ->
    Forall (resolved all_parse_tasks) items ->
    wire_tasks all_parse_tasks checkpoint items dag
    = Return (mkDAG (dag_id dag) (tasks dag)
                (edges dag
                 ++ flat_map (wiring all_parse_tasks checkpoint) items)%list).
Proof.
  induction items as [|[task deps] items IH]; intros dag HK HR; simpl.
  - rewrite app_nil_r. now destruct dag.
  - inversion HK as [|? ? Hk HK']; inversion HR as [|? ? Hr HR']; subst.
    simpl in Hk. unfold resolved in Hr. simpl in Hr.
    rewrite wire_dependencies_Return by assumption. simpl.
    destruct (lookup_task_Some _ _ Hk) as [-> _]. simpl.
    rewrite IH by assumption. unfold wiring. simpl.
    now rewrite <- !app_assoc.
Qed.

Lemma wire_tasks_Raise (all_parse_tasks : dict task_ref)
    (checkpoint : task_ref) (items : list (string * list string)) :
  forall dag,
    Forall (fun item => In (fst item) (map fst all_parse_tasks)) items ->
    Exists (fun item => ~ resolved all_parse_tasks item) items ->
    exists item d,
      In item items /\ In d (snd item)
      /\ ~ In d (map fst all_parse_tasks)
      /\ wire_tasks all_parse_tasks checkpoint items dag
         = Raise (ValueError (missing_table_message d)).
Proof.
  only_goal.
  induction items as [|[task deps] items IH]; intros dag HK HE;
    [inversion HE|].
  inversion HK as [|? ? Hk HK']; subst. simpl in Hk.
  destruct (resolved_dec all_parse_tasks (task, deps)) as [Hr | Hm].
  - assert (HE' : Exists (fun item => ~ resolved all_parse_tasks item) items)
      by (inversion HE; subst; tauto).
    simpl. unfold resolved in Hr. simpl in Hr.
    rewrite wire_dependencies_Return by assumption. simpl.
    destruct (lookup_task_Some _ _ Hk) as [-> _]. simpl.
    match goal with |- context [wire_tasks _ _ _ ?dag'] =>
      destruct (IH dag' HK' HE') as (item & d & Hi & Hd & Hn & E) end.
    exists item, d. simpl. auto.
  - destruct (wire_dependencies_Raise _ task deps dag Hk Hm)
      as (d & Hd & Hn & E).
    exists (task, deps), d. simpl. rewrite E. simpl. auto.
Qed.

(** The loop of lines 191-197 appends one view task and one edge from
    the checkpoint per SQL file. *)
Lemma add_views (full_dataset_name : string) (checkpoint : task_ref)
    (sql_files : list string) :
  forall dag,
    fold_left (add_view full_dataset_name checkpoint) sql_files dag
    = mkDAG (dag_id dag)
        (tasks dag
         ++ map (fun f =>
                   PythonOperator ("create_view_" ++ view_name_of f)
                     (create_view_task full_dataset_name (view_name_of f)
                        (read_file f) parse_destination_dataset_project_id)
                     10) sql_files)%list
        (edges dag
         ++ map (fun t => (checkpoint, t))
              (seq (List.length (tasks dag)) (List.length sql_files)))%list.
Proof.
  induction sql_files as [|f fs IH]; intros dag; simpl.
  - rewrite !app_nil_r. now destruct dag.
  - rewrite IH. unfold add_view, create_add_view_task, add_task,
      set_downstream, view_name_of. simpl.
    rewrite length_app. simpl. rewrite Nat.add_1_r.
    now rewrite <- !app_assoc.
Qed.

(** ** The graph of a validated folder *)

Lemma map_fst_combine {A B : Type} (l : list A) :
  forall l' : list B,
    List.length l = List.length l' -> map fst (combine l l') = l.
Proof.
  induction l as [|a l IH]; intros [|b l'] H; simpl in *;
    try discriminate; [reflexivity|].
  f_equal. apply IH. lia.
Qed.

Lemma table_name_of_validated (folder_name json_file name : string) :
  validate_definition_file folder_name json_file = Return name ->
  table_name_of (read_json_file json_file) = Return (file_name_of json_file).
Proof.
  intros H.
  apply validate_definition_file_inv in H
    as (entries & table & Er & Et & _ & _ & En & _ & _).
  unfold table_name_of. rewrite Er. simpl. rewrite Et. simpl.
  rewrite En. reflexivity.
Qed.

Lemma validated_files (dataset_folder : string) :
  validate_definition_files dataset_folder = Return tt ->
  Forall (fun f => table_name_of (read_json_file f)
                   = Return (file_name_of f))
    (get_list_of_files dataset_folder "*.json")
  /\ NoDup (map file_name_of (get_list_of_files dataset_folder "*.json")).
Proof.
  intros H. apply validate_definition_files_Return in H as [HF ND].
  split.
  - eapply Forall_impl; [|exact HF].
    intros f [name Hn]. eapply table_name_of_validated; eauto.
  - rewrite <- (map_map file_name_of lower) in ND.
    eapply NoDup_map_inv; eauto.
Qed.

Lemma build_parse_dag_validated (id dataset_folder : string) :
  validate_definition_files dataset_folder = Return tt ->
  build_parse_dag id dataset_folder
  = (r <- create_parse_tasks 0
           (get_list_of_files dataset_folder "*.json")
           (mkDAG (effective_dag_id id)
              [wait_for_ethereum_load_dag_task] []) [] [] ;;
     let '(dag, all_parse_tasks, task_dependencies) := r in
     wired <- wire_tasks all_parse_tasks (List.length (tasks dag))
                task_dependencies
                (mkDAG (dag_id dag) (tasks dag ++ [checkpoint_task])%list
                   (edges dag)) ;;
     Return (fold_left
               (add_view ("polygon_" ++ basename dataset_folder)
                  (List.length (tasks dag)))
               (get_list_of_files dataset_folder "*.sql") wired)).
Proof.
  intros H. unfold build_parse_dag. rewrite H.
  unfold add_task, new_dag, effective_dag_id. simpl.
  destruct (create_parse_tasks _ _ _ _ _) as [[[dag apt] td]|e]; simpl;
    [|reflexivity].
  destruct (wire_tasks _ _ _ _) as [dag'|e] eqn:E; simpl; [|reflexivity].
  reflexivity.
Qed.

Lemma map_snd_combine {A B : Type} (l : list A) :
  forall l' : list B,
    List.length l = List.length l' -> map snd (combine l l') = l'.
Proof.
  induction l as [|a l IH]; intros [|b l'] H; simpl in *;
    try discriminate; [reflexivity|].
  f_equal. apply IH. lia.
Qed.

Lemma parse_state (id : string) (json_files : list string)
    (dependencies : list (list string)) :
  NoDup (map file_name_of json_files) ->
  List.length dependencies = List.length json_files ->
  after_parse_tasks 0 json_files dependencies
    (mkDAG id [wait_for_ethereum_load_dag_task] []) [] []
  = (mkDAG id
       (wait_for_ethereum_load_dag_task :: map parsing_operator json_files)
       (map (fun t => (0, t)) (seq 1 (List.length json_files))),
     combine (map file_name_of json_files)
       (seq 1 (List.length json_files)),
     combine (map file_name_of json_files) dependencies).
Proof.
  only_goal.
  intros ND HL. unfold after_parse_tasks.
  cbn [dag_id tasks edges List.length app].
  assert (Hset : forall (V : Type) (vs : list V),
             List.length vs = List.length json_files ->
             set_all [] (combine (map file_name_of json_files) vs)
             = combine (map file_name_of json_files) vs).
  { intros V vs Hvs. rewrite set_all_fresh; [reflexivity | | simpl; tauto].
    rewrite map_fst_combine; [exact ND|]. now rewrite length_map. }
  rewrite !Hset by (auto using length_seq). reflexivity.
Qed.

(** A validated folder in which every reference names a table of the
    folder yields [expected_dag]. *)
Lemma build_parse_dag_resolved (id dataset_folder : string)
    (dependencies : list (list string)) :
  let json_files := get_list_of_files dataset_folder "*.json" in
  validate_definition_files dataset_folder = Return tt ->
  Forall2 (fun f deps => dependencies_of (read_json_file f) = Return deps)
    json_files dependencies ->
  Forall (Forall (fun d => In d (map file_name_of json_files)))
    dependencies ->
  build_parse_dag id dataset_folder
  = Return (expected_dag id dataset_folder dependencies).
Proof.
  intros json_files HV HD HR.
  destruct (validated_files _ HV) as [HN ND]. fold json_files in HN, ND.
  pose proof (Forall2_length HD) as HL.
  rewrite (build_parse_dag_validated _ _ HV). fold json_files.
  rewrite (create_parse_tasks_Return 0 json_files dependencies) by assumption.
  rewrite parse_state by (auto; lia).
  cbn [bind dag_id tasks edges List.length].
  rewrite length_map.
  assert (Hkeys : map fst (combine (map file_name_of json_files)
                             (seq 1 (List.length json_files)))
                  = map file_name_of json_files)
    by (apply map_fst_combine; now rewrite length_map, length_seq).
  rewrite wire_tasks_Return.
  - cbn [bind dag_id tasks edges]. rewrite add_views.
    unfold expected_dag. fold json_files.
    cbn [dag_id tasks edges].
    rewrite length_app. cbn [List.length].
    rewrite length_map, Nat.add_1_r.
    unfold create_view_operator. cbn [app].
    rewrite <- !app_assoc. reflexivity.
  - apply Forall_forall. intros [k deps] Hin. cbn [fst]. rewrite Hkeys.
    apply in_combine_l in Hin. exact Hin.
  - rewrite <- (map_snd_combine (map file_name_of json_files) dependencies)
      in HR by (rewrite length_map; lia).
    rewrite Forall_map in HR.
    eapply Forall_impl; [|exact HR].
    intros item Hr. unfold resolved. rewrite Hkeys. exact Hr.
Qed.

(** A validated folder with a reference to a table it does not define
    makes [build_parse_dag] raise the [ValueError] of line 176. *)
Lemma build_parse_dag_unresolved (id dataset_folder : string)
    (dependencies : list (list string)) :
  let json_files := get_list_of_files dataset_folder "*.json" in
  validate_definition_files dataset_folder = Return tt ->
  Forall2 (fun f deps => dependencies_of (read_json_file f) = Return deps)
    json_files dependencies ->
  Exists (Exists (fun d => ~ In d (map file_name_of json_files)))
    dependencies ->
  exists d,
    Exists (In d) dependencies
    /\ ~ In d (map file_name_of json_files)
    /\ build_parse_dag id dataset_folder
       = Raise (ValueError (missing_table_message d)).
Proof.
  intros json_files HV HD HE.
  destruct (validated_files _ HV) as [HN ND]. fold json_files in HN, ND.
  pose proof (Forall2_length HD) as HL.
  rewrite (build_parse_dag_validated _ _ HV). fold json_files.
  rewrite (create_parse_tasks_Return 0 json_files dependencies) by assumption.
  rewrite parse_state by (auto; lia).
  cbn [bind dag_id tasks edges List.length].
  assert (Hkeys : map fst (combine (map file_name_of json_files)
                             (seq 1 (List.length json_files)))
                  = map file_name_of json_files)
    by (apply map_fst_combine; now rewrite length_map, length_seq).
  match goal with |- context [wire_tasks ?apt ?cp ?td ?dag] =>
    destruct (wire_tasks_Raise apt cp td dag) as (item & d & Hi & Hd & Hn & E)
  end.
  - apply Forall_forall. intros [k deps] Hin. cbn [fst]. rewrite Hkeys.
    apply in_combine_l in Hin. exact Hin.
  - rewrite <- (map_snd_combine (map file_name_of json_files) dependencies)
      in HE by (rewrite length_map; lia).
    rewrite Exists_map in HE.
    eapply Exists_impl; [|exact HE].
    intros item Hm Hr. unfold resolved in Hr. rewrite Hkeys in Hr.
    apply Exists_exists in Hm as (d & Hd & Hn).
    rewrite Forall_forall in Hr. auto.
  - exists d. rewrite Hkeys in Hn. rewrite E. simpl.
    repeat split; auto.
    apply Exists_exists. exists (snd item). split; [|exact Hd].
    destruct item as [k deps]. apply in_combine_r in Hi. exact Hi.
Qed.

(** Whenever a validated folder yields a graph, that graph is
    [expected_dag] and every reference was resolved. *)
Lemma build_parse_dag_inv (id dataset_folder : string) (dag : DAG) :
  let json_files := get_list_of_files dataset_folder "*.json" in
  validate_definition_files dataset_folder = Return tt ->
  build_parse_dag id dataset_folder = Return dag ->
  exists dependencies,
    Forall2 (fun f deps => dependencies_of (read_json_file f) = Return deps)
      json_files dependencies
    /\ Forall (Forall (fun d => In d (map file_name_of json_files)))
         dependencies
    /\ dag = expected_dag id dataset_folder dependencies.
Proof.
  intros json_files HV HB.
  assert (exists dependencies,
             Forall2 (fun f deps => dependencies_of (read_json_file f)
                                    = Return deps) json_files dependencies)
    as [dependencies HD].
  { rewrite (build_parse_dag_validated _ _ HV) in HB. fold json_files in HB.
    destruct (create_parse_tasks _ _ _ _ _) as [r|e] eqn:E;
      [|discriminate].
    eapply create_parse_tasks_inv; eauto. }
  exists dependencies. split; [exact HD|].
  destruct (Forall_Exists_dec
              (Forall (fun d => In d (map file_name_of json_files)))
              (fun deps => Forall_dec _
                 (fun d => in_dec string_dec d
                             (map file_name_of json_files)) deps)
              dependencies) as [HR | HE].
  - split; [exact HR|].
    rewrite (build_parse_dag_resolved _ _ _ HV HD HR) in HB.
    now injection HB.
  - assert (HE' : Exists (Exists (fun d => ~ In d (map file_name_of
                                                    json_files)))
                    dependencies).
    { eapply Exists_impl; [|exact HE]. intros deps Hn.
      apply neg_Forall_Exists_neg; [|exact Hn].
      intros d. destruct (in_dec string_dec d
                            (map file_name_of json_files)); auto. }
    destruct (build_parse_dag_unresolved id _ _ HV HD HE')
      as (d & _ & _ & E).
    congruence.
Qed.

(** ** Reading [expected_dag] *)

Lemma dict_get_combine_seq (ks : list string) :
  forall (b i : nat) (k : string),
    NoDup ks ->
    nth_error ks i = Some k ->
    dict_get (combine ks (seq b (List.length ks))) k = Some (b + i).
Proof.
  induction ks as [|k0 ks IH]; intros b i k ND Hi.
  - destruct i; discriminate.
  - inversion ND as [|? ? Hn ND']; subst. simpl.
    destruct i as [|i]; simpl in Hi.
    + injection Hi as ->. rewrite String.eqb_refl. f_equal. lia.
    + destruct (String.eqb k0 k) eqn:E.
      * apply String.eqb_eq in E; subst k0.
        exfalso. apply Hn. eapply nth_error_In; eauto.
      * rewrite (IH (S b) i k ND' Hi). f_equal. lia.
Qed.

Lemma ref_of_bound (ks : list string) (k : string) :
  ref_of (combine ks (seq 1 (List.length ks))) k <= List.length ks.
Proof.
  unfold ref_of.
  destruct (dict_get _ k) as [t|] eqn:E; [|lia].
  apply dict_get_In, in_combine_r, in_seq in E. lia.
Qed.

Section Expected.
Variables (id dataset_folder : string).
Variable dependencies : list (list string).

Let json_files := get_list_of_files dataset_folder "*.json".
Let sql_files := get_list_of_files dataset_folder "*.sql".
Let names := map file_name_of json_files.
Let n := List.length json_files.
Let dag := expected_dag id dataset_folder dependencies.

Lemma expected_sensor :
  nth_error (tasks dag) 0 = Some wait_for_ethereum_load_dag_task.
Proof. reflexivity. Qed.

Lemma expected_parse_task (i : nat) (f : string) :
  nth_error json_files i = Some f ->
  nth_error (tasks dag) (S i) = Some (parsing_operator f).
Proof.
  intros Hi. unfold dag, expected_dag. cbn [tasks nth_error].
  fold json_files.
  rewrite nth_error_app1
    by (rewrite length_map; apply nth_error_Some; congruence).
  now apply map_nth_error.
Qed.

Lemma expected_checkpoint :
  nth_error (tasks dag) (S n) = Some checkpoint_task.
Proof.
  unfold dag, expected_dag. cbn [tasks nth_error]. fold json_files.
  rewrite nth_error_app2 by (rewrite length_map; unfold n; lia).
  rewrite length_map. unfold n. now rewrite Nat.sub_diag.
Qed.

Lemma expected_view_task (j : nat) (f : string) :
  nth_error sql_files j = Some f ->
  nth_error (tasks dag) (S (S n) + j)
  = Some (create_view_operator dataset_folder f).
Proof.
  intros Hj. unfold dag, expected_dag. cbn [tasks].
  fold json_files sql_files.
  change (nth_error
            (map parsing_operator json_files
             ++ checkpoint_task
             :: map (create_view_operator dataset_folder) sql_files)%list
            (S (n + j))
          = Some (create_view_operator dataset_folder f)).
  rewrite nth_error_app2 by (rewrite length_map; unfold n; lia).
  rewrite length_map.
  replace (S (n + j) - List.length json_files) with (S j)
    by (unfold n; lia).
  cbn [nth_error]. now apply map_nth_error.
Qed.

(** Every task of the graph is one of these four kinds, by position. *)
Lemma expected_tasks_inv (t : nat) (op : operator) :
  nth_error (tasks dag) t = Some op ->
  (t = 0 /\ op = wait_for_ethereum_load_dag_task)
  \/ (exists i f, t = S i /\ nth_error json_files i = Some f
                  /\ op = parsing_operator f)
  \/ (t = S n /\ op = checkpoint_task)
  \/ (exists j f, t = S (S n) + j /\ nth_error sql_files j = Some f
                  /\ op = create_view_operator dataset_folder f).
Proof.
  unfold dag, expected_dag. cbn [tasks]. fold json_files sql_files.
  destruct t as [|t]; cbn [nth_error].
  - intros [= <-]. now left.
  - intros H. right.
    destruct (Nat.lt_ge_cases t n) as [Hlt | Hge].
    + left. rewrite nth_error_app1 in H by now rewrite length_map.
      rewrite nth_error_map in H.
      destruct (nth_error json_files t) as [f|] eqn:E; [|discriminate].
      simpl in H. injection H as <-.
      exists t, f. auto.
    + right. rewrite nth_error_app2 in H by now rewrite length_map.
      rewrite length_map in H. fold n in H.
      destruct (t - n) as [|j] eqn:E; cbn [nth_error] in H.
      * left. injection H as <-. split; [|reflexivity]. f_equal. lia.
      * right. rewrite nth_error_map in H.
        destruct (nth_error sql_files j) as [f|] eqn:Ef; [|discriminate].
        simpl in H. injection H as <-.
        exists j, f. repeat split; auto. lia.
Qed.

Lemma expected_parse_position (t : nat) (op : operator) :
  nth_error (tasks dag) t = Some op ->
  is_parse_task op = true ->
  exists i f, t = S i /\ nth_error json_files i = Some f
              /\ op = parsing_operator f.
Proof.
  intros H Hp.
  destruct (expected_tasks_inv t op H)
    as [[_ ->] | [Hi | [[_ ->] | (j & f & _ & _ & ->)]]];
    try discriminate Hp.
  exact Hi.
Qed.

Lemma expected_view_position (t : nat) (op : operator) :
  nth_error (tasks dag) t = Some op ->
  is_view_task op = true ->
  exists j f, t = S (S n) + j /\ nth_error sql_files j = Some f
              /\ op = create_view_operator dataset_folder f.
Proof.
  intros H Hp.
  destruct (expected_tasks_inv t op H)
    as [[_ ->] | [(i & f & _ & _ & ->) | [[_ ->] | Hj]]];
    try discriminate Hp.
  exact Hj.
Qed.

Lemma expected_sensor_edge (i : nat) :
  i < n -> In (0, S i) (edges dag).
Proof.
  intros Hi. unfold dag, expected_dag. cbn [edges]. fold json_files n.
  apply in_or_app. left.
  apply in_map_iff. exists (S i). split; [reflexivity|].
  apply in_seq. lia.
Qed.

Hypothesis names_distinct : NoDup names.
Hypothesis dependencies_length :
  List.length dependencies = List.length json_files.

Lemma expected_ref (i : nat) (f : string) :
  nth_error json_files i = Some f ->
  ref_of (combine names (seq 1 n)) (file_name_of f) = S i.
Proof using names_distinct.
  intros Hi. unfold ref_of, n.
  rewrite <- (length_map file_name_of json_files). fold names.
  rewrite (dict_get_combine_seq names 1 i); [reflexivity | assumption |].
  unfold names. now apply map_nth_error.
Qed.

Lemma expected_item (i : nat) (f : string) (deps : list string) :
  nth_error json_files i = Some f ->
  nth_error dependencies i = Some deps ->
  In (file_name_of f, deps) (combine names dependencies).
Proof using dependencies_length.
  intros Hf Hd. apply (nth_error_In _ i).
  unfold names.
  revert i Hf Hd dependencies_length.
  generalize dependencies as dl. generalize json_files as fl.
  induction fl as [|f0 fl IH]; intros [|d0 dl] [|i] Hf Hd HL;
    simpl in *; try discriminate.
  - now injection Hf as ->; injection Hd as ->.
  - apply IH; auto.
Qed.

Lemma expected_checkpoint_edge (i : nat) (f : string) :
  nth_error json_files i = Some f ->
  In (S i, S n) (edges dag).
Proof using names_distinct dependencies_length.
  intros Hf.
  destruct (nth_error dependencies i) as [deps|] eqn:Hd.
  2:{ apply nth_error_None in Hd.
      assert (i < List.length json_files)
        by (apply nth_error_Some; congruence). lia. }
  unfold dag, expected_dag. cbn [edges]. fold json_files names n.
  apply in_or_app. right. apply in_or_app. left.
  apply in_flat_map. exists (file_name_of f, deps).
  split; [now apply (expected_item i)|].
  unfold wiring. cbn [fst snd]. apply in_or_app. right.
  rewrite (expected_ref i f Hf). now left.
Qed.

Lemma expected_dependency_edge (i j : nat) (fa fb : string)
    (deps : list string) :
  nth_error json_files i = Some fa ->
  nth_error json_files j = Some fb ->
  nth_error dependencies j = Some deps ->
  In (file_name_of fa) deps ->
  In (S i, S j) (edges dag).
Proof using names_distinct dependencies_length.
  intros Ha Hb Hd Hin.
  unfold dag, expected_dag. cbn [edges]. fold json_files names n.
  apply in_or_app. right. apply in_or_app. left.
  apply in_flat_map. exists (file_name_of fb, deps).
  split; [now apply (expected_item j)|].
  unfold wiring. cbn [fst snd]. apply in_or_app. left.
  apply in_map_iff. exists (file_name_of fa).
  rewrite (expected_ref i fa Ha), (expected_ref j fb Hb). auto.
Qed.
End Expected.

Lemma filter_target_none (v : nat) (es : list (nat * nat)) :
  Forall (fun e => snd e <> v) es ->
  filter (fun e => Nat.eqb (snd e) v) es = [].
Proof.
  induction 1 as [|e es He _ IH]; simpl; [reflexivity|].
  apply Nat.eqb_neq in He. now rewrite He.
Qed.

Lemma filter_target_seq (c v : nat) (m : nat) :
  forall a,
    a <= v < a + m ->
    filter (fun e => Nat.eqb (snd e) v) (map (fun t => (c, t)) (seq a m))
    = [(c, v)].
Proof.
  induction m as [|m IH]; intros a H; [lia|].
  simpl. destruct (Nat.eqb a v) eqn:E.
  - apply Nat.eqb_eq in E; subst a. f_equal.
    apply filter_target_none. apply Forall_forall.
    intros e He. apply in_map_iff in He as (t & <- & Ht).
    apply in_seq in Ht. simpl. lia.
  - apply Nat.eqb_neq in E. apply IH. lia.
Qed.

(** A view task has the checkpoint as its only upstream task. *)
Lemma expected_view_upstream (id dataset_folder : string)
    (dependencies : list (list string)) (j : nat) :
  let n := List.length (get_list_of_files dataset_folder "*.json") in
  j < List.length (get_list_of_files dataset_folder "*.sql") ->
  upstream (expected_dag id dataset_folder dependencies) (S (S n) + j)
  = [S n].
Proof.
  intros n Hj. unfold upstream, expected_dag. cbn [edges]. fold n.
  rewrite !filter_app.
  rewrite (filter_target_none _ (map _ (seq 1 n))).
  2:{ apply Forall_forall. intros e He.
      apply in_map_iff in He as (t & <- & Ht).
      apply in_seq in Ht. simpl. lia. }
  rewrite (filter_target_none _ (flat_map _ _)).
  2:{ apply Forall_forall. intros e He.
      apply in_flat_map in He as (item & _ & He).
      unfold wiring in He. apply in_app_or in He as [He | [<- | []]].
      - apply in_map_iff in He as (d & <- & _). cbn [snd].
        pose proof (ref_of_bound
                      (map file_name_of
                         (get_list_of_files dataset_folder "*.json"))
                      (fst item)) as Hb.
        rewrite length_map in Hb. fold n in Hb. lia.
      - simpl. lia. }
  rewrite filter_target_seq by lia. reflexivity.
Qed.

(** ** Substrings *)

Lemma append_assoc (a b c : string) : (a ++ b) ++ c = a ++ (b ++ c).
Proof.
  induction a as [|x a IH]; simpl; [reflexivity | now rewrite IH].
Qed.

Lemma contains_refl (s : string) : contains s s.
Proof.
  exists "", "". simpl.
  induction s as [|c s IH]; simpl; [reflexivity | now rewrite <- IH].
Qed.

Lemma contains_append_l (a s needle : string) :
  contains s needle -> contains (a ++ s) needle.
Proof.
  intros (before & after & ->).
  exists (a ++ before), after. now rewrite append_assoc.
Qed.

Lemma contains_append_r (s a needle : string) :
  contains s needle -> contains (s ++ a) needle.
Proof.
  intros (before & after & ->).
  exists before, (after ++ a). now rewrite !append_assoc.
Qed.

Lemma contains_join (sep x : string) (l : list string) :
  In x l -> contains (join sep l) x.
Proof.
  induction l as [|y l IH]; intros Hin; [destruct Hin|].
  destruct l as [|z l].
  - destruct Hin as [-> | []]. apply contains_refl.
  - change (join sep (y :: z :: l)) with (y ++ sep ++ join sep (z :: l)).
    destruct Hin as [-> | Hin].
    + apply contains_append_r, contains_refl.
    + apply contains_append_l, contains_append_l, IH, Hin.
Qed.

Lemma prefix_spec (needle s : string) :
  prefix needle s = true <-> exists after, s = needle ++ after.
Proof.
  revert s. induction needle as [|c needle IH]; intros s.
  - split; [intros _; now exists s | now destruct s].
  - destruct s as [|d s]; simpl;
      [split; [discriminate | intros [? [=]]]|].
    destruct (ascii_dec c d) as [->|Hne].
    + rewrite IH. split; intros [after E]; exists after; congruence.
    + split; [discriminate|]. intros [after E]. congruence.
Qed.

Lemma containsb_spec (s needle : string) :
  containsb s needle = true <-> contains s needle.
Proof.
  induction s as [|c s IH].
  - cbn [containsb]. rewrite orb_false_r, prefix_spec. split.
    + intros [after E]. exists "", after. exact E.
    + intros ([|? ?] & after & E); [now exists after | discriminate].
  - cbn [containsb]. rewrite orb_true_iff, prefix_spec, IH. split.
    + intros [[after E] | (before & after & E)].
      * exists "", after. exact E.
      * exists (String c before), after. simpl. now rewrite E.
    + intros ([|d before] & after & E).
      * left. now exists after.
      * right. simpl in E. injection E as _ E. now exists before, after.
Qed.

(** ** Tables and references of a folder *)

Lemma defines_table_validated (dataset_folder name : string) :
  validate_definition_files dataset_folder = Return tt ->
  defines_table dataset_folder name
  <-> In name (map file_name_of (get_list_of_files dataset_folder "*.json")).
Proof.
  intros HV. destruct (validated_files _ HV) as [HN _].
  rewrite Forall_forall in HN. unfold defines_table. rewrite in_map_iff.
  split.
  - intros (f & Hin & E). exists f. split; [|exact Hin].
    rewrite (HN f Hin) in E. now injection E.
  - intros (f & <- & Hin). exists f. auto.
Qed.

Lemma dependencies_of_In (table_definition : json) (deps : list string)
    (d : string) :
  dependencies_of table_definition = Return deps ->
  In d deps
  <-> exists s, contract_address_of table_definition = Return (JStr s)
                /\ In d (findall s).
Proof.
  unfold dependencies_of, contract_address_of.
  destruct (py_getitem table_definition "parser") as [parser|]; simpl;
    [|discriminate].
  destruct (py_getitem parser "contract_address") as [[| | |s| |]|];
    simpl; try discriminate; intros [= <-].
  - split; [intros [] | intros (s & [=] & _)].
  - split; [intros H; now exists s | intros (s' & [= <-] & H); exact H].
Qed.

Lemma Forall_exists_Forall2 {A B : Type} (R : A -> B -> Prop) (l : list A) :
  Forall (fun a => exists b, R a b) l -> exists l', Forall2 R l l'.
Proof.
  induction 1 as [|a l [b Hb] _ [l' IH]].
  - exists []. constructor.
  - exists (b :: l'). now constructor.
Qed.

Lemma Forall2_In_l {A B : Type} (R : A -> B -> Prop) (l : list A)
    (l' : list B) (a : A) :
  Forall2 R l l' -> In a l -> exists b, In b l' /\ R a b.
Proof.
  induction 1 as [|x y l l' Hxy _ IH]; intros Hin; [destruct Hin|].
  destruct Hin as [-> | Hin].
  - exists y. split; [now left | exact Hxy].
  - destruct (IH Hin) as (b & Hb & Hr). exists b. split; [now right | exact Hr].
Qed.

Lemma Forall2_In_r {A B : Type} (R : A -> B -> Prop) (l : list A)
    (l' : list B) (b : B) :
  Forall2 R l l' -> In b l' -> exists a, In a l /\ R a b.
Proof.
  induction 1 as [|x y l l' Hxy _ IH]; intros Hin; [destruct Hin|].
  destruct Hin as [-> | Hin].
  - exists x. split; [now left | exact Hxy].
  - destruct (IH Hin) as (a & Ha & Hr). exists a. split; [now right | exact Hr].
Qed.

(** The failure of lines 175-178, in the vocabulary of the folder. *)
Lemma build_parse_dag_missing_table (id dataset_folder : string)
    (json_file dependency : string) :
  validate_definition_files dataset_folder = Return tt ->
  parsers_well_formed dataset_folder ->
  references dataset_folder json_file dependency ->
  ~ defines_table dataset_folder dependency ->
  exists json_file' missing,
    references dataset_folder json_file' missing
    /\ ~ defines_table dataset_folder missing
    /\ build_parse_dag id dataset_folder
       = Raise (ValueError (missing_table_message missing)).
Proof.
  intros HV HW (Hin & s & Hs & Hd) Hn.
  destruct (Forall_exists_Forall2 _ _ HW) as [depss HD].
  destruct (Forall2_In_l _ _ _ _ HD Hin) as (deps & Hdeps & E).
  destruct (build_parse_dag_unresolved id dataset_folder depss HV HD)
    as (missing & Hm & Hnm & HB).
  - apply Exists_exists. exists deps. split; [exact Hdeps|].
    apply Exists_exists. exists dependency. split.
    + apply (dependencies_of_In _ _ _ E). eauto.
    + now rewrite <- (defines_table_validated _ _ HV).
  - apply Exists_exists in Hm as (deps' & Hdeps' & Hin').
    destruct (Forall2_In_r _ _ _ _ HD Hdeps') as (f' & Hf' & E').
    exists f', missing. repeat split; auto.
    + now apply (dependencies_of_In _ _ _ E').
    + now rewrite (defines_table_validated _ _ HV).
Qed.

(** ** The claims *)

(** C9. When the validator raises a [ValueError], the graph returned
    holds exactly one task, named [validation_error], whose callable
    raises that error; it has no parse task, no sensor, no checkpoint,
    no view task and no edge. *)
Theorem C9_validation_error_graph (id dataset_folder msg : string) :
  validate_definition_files dataset_folder = Raise (ValueError msg) ->
  exists dag,
    build_parse_dag id dataset_folder = Return dag
    /\ tasks dag = [validation_error_operator (ValueError msg)]
    /\ map task_id (tasks dag) = ["validation_error"]
    /\ filter is_parse_task (tasks dag) = []
    /\ filter is_sensor (tasks dag) = []
    /\ filter is_checkpoint (tasks dag) = []
    /\ filter is_view_task (tasks dag) = []
    /\ edges dag = [].
Proof.
  intros HV. unfold build_parse_dag. rewrite HV. simpl.
  eexists. split; [reflexivity|]. simpl. repeat split.
Qed.



Lemma count_occ_twice (g : string -> string) (l1 l2 l3 : list string)
    (f1 f2 : string) :
  g f1 = g f2 ->
  1 < count_occ string_dec
        (map g (l1 ++ f1 :: l2 ++ f2 :: l3)%list) (g f1).
Proof.
  intros E. rewrite map_app, count_occ_app. cbn [map].
  rewrite count_occ_cons_eq by reflexivity.
  rewrite map_app, count_occ_app. cbn [map].
  rewrite (count_occ_cons_eq _ _ (eq_sym E)). lia.
Qed.


(** C6. When every definition follows the naming rules and the table
    names are pairwise distinct once lower-cased, validation returns
    without raising. *)
Theorem C6_valid_definitions_pass (dataset_folder : string) :
  let json_files := get_list_of_files dataset_folder "*.json" in
  Forall (follows_naming_rules dataset_folder) json_files ->
  NoDup (map (fun f => lower (file_name_of f)) json_files) ->
  validate_definition_files dataset_folder = Return tt.
Proof.
  intros json_files HF ND.
  apply validate_definition_files_Return. split; [|exact ND].
  eapply Forall_impl; [|exact HF].
  intros f (entries & table & Er & Et & Ed & Hd & En & Hn).
  exists (lower (file_name_of f)).
  eapply validate_definition_file_ok; eauto.
Qed.

Lemma validate_definition_file_mismatch (dataset_folder json_file : string)
    (dataset_name : json) :
  declared_dataset_name (read_json_file json_file) = Some dataset_name ->
  truthy dataset_name = true ->
  dataset_name <> JStr (last_component dataset_folder) ->
  validate_definition_file (last_component dataset_folder) json_file
  = Raise (ValueError (dataset_mismatch_message dataset_name
                         (last_component dataset_folder))).
Proof.
  unfold declared_dataset_name, validate_definition_file.
  destruct (read_json_file json_file) as [| | | | |entries];
    try discriminate.
  simpl.
  destruct (dict_get entries "table") as [[| | | | |table]|];
    try discriminate.
  intros Hd Ht Hne.
  assert (table <> []) by (intros ->; discriminate).
  destruct table as [|e table]; [congruence|].
  cbn [bind truthy negb py_get]. rewrite Hd. rewrite Ht. cbn [negb].
  destruct (str_ne (last_component dataset_folder) dataset_name) eqn:E.
  - reflexivity.
  - apply str_ne_false in E. congruence.
Qed.

(** C7. A definition whose declared [dataset_name] differs from the
    name of the folder makes validation fail; when the files before it
    pass their checks, the [ValueError] raised cites the declared
    [dataset_name] and the name of the folder. *)
Theorem C7_dataset_name_mismatch (dataset_folder json_file : string)
    (dataset_name : json) :
  let json_files := get_list_of_files dataset_folder "*.json" in
  let message :=
    dataset_mismatch_message dataset_name (last_component dataset_folder) in
  In json_file json_files ->
  declared_dataset_name (read_json_file json_file) = Some dataset_name ->
  truthy dataset_name = true ->
  dataset_name <> JStr (last_component dataset_folder) ->
  validate_definition_files dataset_folder <> Return tt
  /\ forall before after,
       json_files = (before ++ json_file :: after)%list ->
       Forall (passes_file_checks dataset_folder) before ->
       validate_definition_files dataset_folder = Raise (ValueError message)
       /\ contains message (format dataset_name)
       /\ contains message (last_component dataset_folder).
Proof.
  intros json_files message Hin Hd Ht Hne.
  pose proof (validate_definition_file_mismatch _ _ _ Hd Ht Hne) as E.
  split.
  - intros HV. apply validate_definition_files_Return in HV as [HF _].
    rewrite Forall_forall in HF. destruct (HF _ Hin) as [name Hn].
    congruence.
  - intros before after Hfiles HF. repeat split.
    + unfold validate_definition_files. fold json_files. rewrite Hfiles.
      unfold passes_file_checks in HF.
      rewrite (validate_each_first_error _ _ _ _ _ _ HF E). reflexivity.
    + unfold message, dataset_mismatch_message.
      apply contains_append_l, contains_append_r, contains_refl.
    + unfold message, dataset_mismatch_message.
      apply contains_append_l, contains_append_l, contains_append_l,
        contains_refl.
Qed.

Lemma filter_map_none {A B : Type} (p : B -> bool) (g : A -> B)
    (l : list A) :
  (forall a, p (g a) = false) -> filter p (map g l) = [].
Proof.
  intros H. induction l as [|a l IH]; simpl; [reflexivity|].
  now rewrite H.
Qed.

Lemma filter_map_all {A B : Type} (p : B -> bool) (g : A -> B)
    (l : list A) :
  (forall a, p (g a) = true) -> filter p (map g l) = map g l.
Proof.
  intros H. induction l as [|a l IH]; simpl; [reflexivity|].
  now rewrite H, IH.
Qed.

Lemma Forall2_nth_error {A B : Type} (R : A -> B -> Prop) (l : list A)
    (l' : list B) :
  Forall2 R l l' ->
  forall i a, nth_error l i = Some a ->
              exists b, nth_error l' i = Some b /\ R a b.
Proof.
  induction 1 as [|x y l l' Hxy _ IH]; intros [|i] a Hi;
    simpl in *; try discriminate.
  - injection Hi as <-. eauto.
  - eauto.
Qed.

Lemma nth_error_lt {A : Type} (l : list A) (i : nat) (a : A) :
  nth_error l i = Some a -> i < List.length l.
Proof.
  intros H. apply nth_error_Some. congruence.
Qed.

(** C4. In the graph of a validated folder, when the definition [fb]
    refers to the table of the definition [fa], the parse task of [fa]
    has an edge to the parse task of [fb], both have an edge to the
    checkpoint, and the checkpoint was constructed after every parse
    task. *)
Theorem C4_dependency_order (id dataset_folder : string) (dag : DAG)
    (i j : nat) (fa fb a s : string) :
  let json_files := get_list_of_files dataset_folder "*.json" in
  let checkpoint := S (List.length json_files) in
  validate_definition_files dataset_folder = Return tt ->
  build_parse_dag id dataset_folder = Return dag ->
  nth_error json_files i = Some fa ->
  nth_error json_files j = Some fb ->
  table_name_of (read_json_file fa) = Return a ->
  dependencies_of (read_json_file fa) = Return [] ->
  contract_address_of (read_json_file fb) = Return (JStr s) ->
  In a (findall s) ->
  nth_error (tasks dag) (S i) = Some (parsing_operator fa)
  /\ nth_error (tasks dag) (S j) = Some (parsing_operator fb)
  /\ nth_error (tasks dag) checkpoint = Some checkpoint_task
  /\ In (S i, S j) (edges dag)
  /\ In (S i, checkpoint) (edges dag)
  /\ In (S j, checkpoint) (edges dag)
  /\ (forall t op,
         nth_error (tasks dag) t = Some op ->
         is_parse_task op = true -> t < checkpoint).
Proof.
  intros json_files checkpoint HV HB Ha Hb Hta _ Hs Hin.
  destruct (build_parse_dag_inv _ _ _ HV HB) as (depss & HD & _ & ->).
  destruct (validated_files _ HV) as [HN ND].
  fold json_files in HD, HN, ND.
  pose proof (Forall2_length HD) as HL. symmetry in HL.
  destruct (Forall2_nth_error _ _ _ HD j fb Hb) as (depsb & Hdb & Eb).
  assert (a = file_name_of fa) as ->.
  { rewrite Forall_forall in HN.
    rewrite (HN fa (nth_error_In _ _ Ha)) in Hta. now injection Hta. }
  assert (Hdep : In (file_name_of fa) depsb)
    by (apply (dependencies_of_In _ _ _ Eb); eauto).
  repeat split.
  - now apply expected_parse_task.
  - now apply expected_parse_task.
  - apply expected_checkpoint.
  - eapply expected_dependency_edge; eauto.
  - eapply expected_checkpoint_edge; eauto.
  - eapply expected_checkpoint_edge; eauto.
  - intros t op Ht Hp.
    destruct (expected_parse_position _ _ _ _ _ Ht Hp) as (k & f & -> & Hk & _).
    apply nth_error_lt in Hk. unfold checkpoint. fold json_files in Hk.
    lia.
Qed.

(** C5. The graph of a validated folder has one view task per SQL file,
    in order, named after the base name of the file without its
    extension; the only task upstream of a view task is the
    checkpoint. *)
Theorem C5_view_tasks (id dataset_folder : string) (dag : DAG) :
  let json_files := get_list_of_files dataset_folder "*.json" in
  let sql_files := get_list_of_files dataset_folder "*.sql" in
  let checkpoint := S (List.length json_files) in
  validate_definition_files dataset_folder = Return tt ->
  build_parse_dag id dataset_folder = Return dag ->
  filter is_view_task (tasks dag)
  = map (create_view_operator dataset_folder) sql_files
  /\ List.length (filter is_view_task (tasks dag)) = List.length sql_files
  /\ map task_id (filter is_view_task (tasks dag))
     = map (fun f => "create_view_" ++ fst (splitext (basename f)))
         sql_files
  /\ nth_error (tasks dag) checkpoint = Some checkpoint_task
  /\ (forall t op,
         nth_error (tasks dag) t = Some op ->
         is_view_task op = true ->
         upstream dag t = [checkpoint]).
Proof.
  intros json_files sql_files checkpoint HV HB.
  destruct (build_parse_dag_inv _ _ _ HV HB) as (depss & HD & _ & ->).
  assert (Hviews : filter is_view_task
                     (tasks (expected_dag id dataset_folder depss))
                   = map (create_view_operator dataset_folder) sql_files).
  { unfold expected_dag. cbn [tasks filter is_view_task].
    rewrite filter_app. cbn [filter is_view_task].
    rewrite filter_map_none by reflexivity.
    now rewrite filter_map_all by reflexivity. }
  split; [exact Hviews|]. rewrite Hviews.
  split; [apply length_map|].
  split; [now rewrite map_map|].
  split; [apply expected_checkpoint|].
  intros t op Ht Hp.
  destruct (expected_view_position _ _ _ _ _ Ht Hp) as (k & f & -> & Hk & _).
  apply expected_view_upstream.
  apply nth_error_lt in Hk. exact Hk.
Qed.

(** C8. The graph of a validated folder has exactly one sensor, the
    first task constructed; it waits for the task [done] of
    [polygon_partition_dag] with an execution delta of 30 minutes, 20
    retries, a timeout of 108000 seconds and the [reschedule] mode; and
    it has an edge to every parse task. *)
Theorem C8_upstream_sensor (id dataset_folder : string) (dag : DAG) :
  validate_definition_files dataset_folder = Return tt ->
  build_parse_dag id dataset_folder = Return dag ->
  filter is_sensor (tasks dag) = [wait_for_ethereum_load_dag_task]
  /\ nth_error (tasks dag) 0 = Some wait_for_ethereum_load_dag_task
  /\ wait_for_ethereum_load_dag_task
     = ExternalTaskSensor "wait_for_polygon_partition_dag"
         "polygon_partition_dag" "done" 30 0 "reschedule" 20 300 108000
  /\ (forall t op,
         nth_error (tasks dag) t = Some op ->
         is_parse_task op = true ->
         In (0, t) (edges dag)).
Proof.
  intros HV HB.
  destruct (build_parse_dag_inv _ _ _ HV HB) as (depss & HD & _ & ->).
  split; [|split; [reflexivity | split; [reflexivity|]]].
  - unfold expected_dag. cbn [tasks filter is_sensor].
    rewrite filter_app. cbn [filter is_sensor].
    now rewrite !filter_map_none by reflexivity.
  - intros t op Ht Hp.
    destruct (expected_parse_position _ _ _ _ _ Ht Hp) as (k & f & -> & Hk & _).
    apply expected_sensor_edge. now apply nth_error_lt in Hk.
Qed.

(** Lines 114-118 on a definition whose [contract_address] is [null]:
    no dependency, and the operator is constructed all the same. *)
Lemma create_parse_task_null (dag : DAG) (table_definition : json)
    (name : string) :
  table_name_of table_definition = Return name ->
  contract_address_of table_definition = Return JNull ->
  dependencies_of table_definition = Return []
  /\ create_parse_task dag table_definition
     = Return (List.length (tasks dag), [],
               mkDAG (dag_id dag)
                 (tasks dag
                  ++ [PythonOperator name
                        (parse_task table_definition
                           parse_destination_dataset_project_id
                           parse_all_partitions) 60])%list
                 (edges dag)).
Proof.
  intros Hn Hc.
  assert (Hd : dependencies_of table_definition = Return []).
  { unfold contract_address_of in Hc. unfold dependencies_of.
    destruct (py_getitem table_definition "parser") as [parser|];
      simpl in *; [|discriminate].
    now rewrite Hc. }
  split; [exact Hd|].
  rewrite create_parse_task_eq, Hn, Hd. reflexivity.
Qed.

(** Every definition of a validated folder gets its parse task, an edge
    from the sensor and an edge to the checkpoint. *)
Lemma parse_task_wired (id dataset_folder : string) (dag : DAG)
    (i : nat) (f : string) :
  let json_files := get_list_of_files dataset_folder "*.json" in
  let checkpoint := S (List.length json_files) in
  validate_definition_files dataset_folder = Return tt ->
  build_parse_dag id dataset_folder = Return dag ->
  nth_error json_files i = Some f ->
  nth_error (tasks dag) 0 = Some wait_for_ethereum_load_dag_task
  /\ nth_error (tasks dag) (S i) = Some (parsing_operator f)
  /\ nth_error (tasks dag) checkpoint = Some checkpoint_task
  /\ In (0, S i) (edges dag)
  /\ In (S i, checkpoint) (edges dag).
Proof.
  intros json_files checkpoint HV HB Hf.
  destruct (build_parse_dag_inv _ _ _ HV HB) as (depss & HD & _ & ->).
  destruct (validated_files _ HV) as [HN ND].
  pose proof (Forall2_length HD) as HL. symmetry in HL.
  repeat split.
  - now apply expected_parse_task.
  - apply expected_checkpoint.
  - apply expected_sensor_edge. now apply nth_error_lt in Hf.
  - eapply expected_checkpoint_edge; eauto.
Qed.

(** ** Further properties of the validator *)

Lemma validate_definition_file_cases (folder_name json_file : string) :
  (exists name,
      validate_definition_file folder_name json_file = Return name)
  \/ (exists msg,
         validate_definition_file folder_name json_file
         = Raise (ValueError msg))
  \/ validate_definition_file folder_name json_file = Raise AttributeError.
Proof.
  unfold validate_definition_file.
  destruct (read_json_file json_file) as [| | | | |entries]; simpl; auto.
  destruct (dict_get entries "table") as [table|]; simpl; [|eauto].
  destruct (truthy table) eqn:Tt; simpl; [|eauto].
  destruct table as [| | | | |tbl]; simpl; auto.
  destruct (dict_get tbl "dataset_name") as [dn|]; simpl; [|eauto].
  destruct (truthy dn); simpl; [|eauto].
  destruct (str_ne folder_name dn); [eauto|].
  destruct (dict_get tbl "table_name") as [tn|]; simpl; [|eauto].
  destruct (truthy tn); simpl; [|eauto].
  destruct (str_ne _ tn); [eauto|].
  destruct tn; eauto.
Qed.

Lemma validate_each_cases (folder_name : string) (json_files : list string) :
  forall acc,
    (exists names, validate_each folder_name json_files acc = Return names)
    \/ (exists msg,
           validate_each folder_name json_files acc = Raise (ValueError msg))
    \/ validate_each folder_name json_files acc = Raise AttributeError.
Proof.
  induction json_files as [|f fs IH]; intros acc; simpl; [eauto|].
  destruct (validate_definition_file_cases folder_name f)
    as [[name ->] | [[msg ->] | ->]]; simpl; eauto.
Qed.

Lemma validation_outcomes (dataset_folder : string) :
  validate_definition_files dataset_folder = Return tt
  \/ (exists msg,
         validate_definition_files dataset_folder = Raise (ValueError msg))
  \/ validate_definition_files dataset_folder = Raise AttributeError.
Proof.
  unfold validate_definition_files.
  destruct (validate_each_cases (last_component dataset_folder)
              (get_list_of_files dataset_folder "*.json") [])
    as [[names ->] | [[msg ->] | ->]]; simpl; eauto.
  destruct (Nat.ltb 0 _); eauto.
Qed.

Lemma build_parse_dag_invalid (id dataset_folder : string) (e : exn) :
  validate_definition_files dataset_folder = Raise e ->
  build_parse_dag id dataset_folder
  = match e with
    | ValueError msg =>
        Return (placeholder_dag (effective_dag_id id) (ValueError msg))
    | _ => Raise e
    end.
Proof.
  intros HV. unfold build_parse_dag. rewrite HV. now destruct e.
Qed.

Lemma validate_first_failure (dataset_folder : string)
    (before after : list string) (json_file : string) (e : exn) :
  get_list_of_files dataset_folder "*.json"
  = (before ++ json_file :: after)%list ->
  Forall (passes_file_checks dataset_folder) before ->
  validate_definition_file (last_component dataset_folder) json_file
  = Raise e ->
  validate_definition_files dataset_folder = Raise e.
Proof.
  intros Hfiles HF He. unfold validate_definition_files. rewrite Hfiles.
  unfold passes_file_checks in HF.
  now rewrite (validate_each_first_error _ _ _ _ _ _ HF He).
Qed.

(** X1. Validation returns exactly when every definition follows the
    naming rules and the lower-cased table names are pairwise distinct. *)
Theorem X1_validation_succeeds_iff (dataset_folder : string) :
  let json_files := get_list_of_files dataset_folder "*.json" in
  validate_definition_files dataset_folder = Return tt
  <-> Forall (follows_naming_rules dataset_folder) json_files
      /\ NoDup (map (fun f => lower (file_name_of f)) json_files).
Proof.
  intros json_files. rewrite validate_definition_files_Return.
  fold json_files. split; intros [HF ND]; (split; [|exact ND]).
  - eapply Forall_impl; [|exact HF].
    intros f [name Hn].
    apply validate_definition_file_inv in Hn
      as (entries & table & Er & Et & Ed & Hd & En & Hne & _).
    exists entries, table. auto 10.
  - eapply Forall_impl; [|exact HF].
    intros f (entries & table & Er & Et & Ed & Hd & En & Hn).
    exists (lower (file_name_of f)).
    eapply validate_definition_file_ok; eauto.
Qed.

(** X2. The validator either returns, raises a [ValueError] or raises an
    [AttributeError].  On a [ValueError] the builder returns the
    placeholder graph; an [AttributeError] is not caught and leaves
    [build_parse_dag]. *)
Theorem X2_validation_failure_modes (id dataset_folder : string) :
  validate_definition_files dataset_folder = Return tt
  \/ (exists msg,
         validate_definition_files dataset_folder = Raise (ValueError msg)
         /\ build_parse_dag id dataset_folder
            = Return (placeholder_dag (effective_dag_id id) (ValueError msg)))
  \/ (validate_definition_files dataset_folder = Raise AttributeError
      /\ build_parse_dag id dataset_folder = Raise AttributeError).
Proof.
  destruct (validation_outcomes dataset_folder) as [H | [[msg H] | H]].
  - now left.
  - right. left. exists msg. split; [exact H|].
    now rewrite (build_parse_dag_invalid _ _ _ H).
  - right. right. split; [exact H|].
    now rewrite (build_parse_dag_invalid _ _ _ H).
Qed.

(** X3. A definition that is not a JSON object, met after files that pass
    their checks, makes the validator raise an [AttributeError], which
    [build_parse_dag] lets through: no placeholder graph is returned. *)
Theorem X3_definition_not_an_object (id dataset_folder : string)
    (before after : list string) (json_file : string) :
  get_list_of_files dataset_folder "*.json"
  = (before ++ json_file :: after)%list ->
  Forall (passes_file_checks dataset_folder) before ->
  (forall entries, read_json_file json_file <> JObj entries) ->
  validate_definition_files dataset_folder = Raise AttributeError
  /\ build_parse_dag id dataset_folder = Raise AttributeError.
Proof.
  intros Hfiles HF Hno.
  assert (HV : validate_definition_files dataset_folder = Raise AttributeError).
  { apply (validate_first_failure _ _ _ _ _ Hfiles HF).
    unfold validate_definition_file.
    destruct (read_json_file json_file) as [| | | | |entries];
      try reflexivity.
    now destruct (Hno entries). }
  split; [exact HV|]. now rewrite (build_parse_dag_invalid _ _ _ HV).
Qed.

(** X4. A definition whose [table] section is missing or empty, met after
    files that pass their checks, makes validation raise [table is empty
    in file] followed by the path of the file; the build returns the
    placeholder graph for that error. *)
Theorem X4_table_section_missing (id dataset_folder : string)
    (before after : list string) (json_file : string) (table : json) :
  let message := "table is empty in file " ++ json_file in
  get_list_of_files dataset_folder "*.json"
  = (before ++ json_file :: after)%list ->
  Forall (passes_file_checks dataset_folder) before ->
  py_get (read_json_file json_file) "table" = Return table ->
  truthy table = false ->
  validate_definition_files dataset_folder = Raise (ValueError message)
  /\ build_parse_dag id dataset_folder
     = Return (placeholder_dag (effective_dag_id id) (ValueError message))
  /\ contains message json_file.
Proof.
  intros message Hfiles HF Ht Hf.
  assert (HV : validate_definition_files dataset_folder
               = Raise (ValueError message)).
  { apply (validate_first_failure _ _ _ _ _ Hfiles HF).
    unfold validate_definition_file. rewrite Ht. simpl. now rewrite Hf. }
  split; [exact HV|]. split.
  - now rewrite (build_parse_dag_invalid _ _ _ HV).
  - apply contains_append_l, contains_refl.
Qed.

(** X5. A [table] section without a [dataset_name], or with an empty one,
    makes validation raise [dataset_name is empty in file] followed by the
    path of the file. *)
Theorem X5_dataset_name_missing (id dataset_folder : string)
    (before after : list string) (json_file : string)
    (entries table : list (string * json)) (dataset_name : json) :
  let message := "dataset_name is empty in file " ++ json_file in
  get_list_of_files dataset_folder "*.json"
  = (before ++ json_file :: after)%list ->
  Forall (passes_file_checks dataset_folder) before ->
  read_json_file json_file = JObj entries ->
  dict_get entries "table" = Some (JObj table) ->
  table <> [] ->
  py_get (JObj table) "dataset_name" = Return dataset_name ->
  truthy dataset_name = false ->
  validate_definition_files dataset_folder = Raise (ValueError message)
  /\ build_parse_dag id dataset_folder
     = Return (placeholder_dag (effective_dag_id id) (ValueError message))
  /\ contains message json_file.
Proof.
  intros message Hfiles HF Er Et Hne Hd Hf.
  assert (HV : validate_definition_files dataset_folder
               = Raise (ValueError message)).
  { apply (validate_first_failure _ _ _ _ _ Hfiles HF).
    unfold validate_definition_file. rewrite Er. simpl. rewrite Et.
    destruct table as [|e table]; [congruence|].
    cbn [bind truthy negb]. rewrite Hd. cbn [bind]. now rewrite Hf. }
  split; [exact HV|]. split.
  - now rewrite (build_parse_dag_invalid _ _ _ HV).
  - apply contains_append_l, contains_refl.
Qed.

(** X6. A [table] section with the right [dataset_name] and no
    [table_name], or an empty one, makes validation raise [table_name is
    empty in file] followed by the path of the file. *)
Theorem X6_table_name_missing (id dataset_folder : string)
    (before after : list string) (json_file : string)
    (entries table : list (string * json)) (table_name : json) :
  let message := "table_name is empty in file " ++ json_file in
  get_list_of_files dataset_folder "*.json"
  = (before ++ json_file :: after)%list ->
  Forall (passes_file_checks dataset_folder) before ->
  read_json_file json_file = JObj entries ->
  dict_get entries "table" = Some (JObj table) ->
  dict_get table "dataset_name" = Some (JStr (last_component dataset_folder)) ->
  last_component dataset_folder <> "" ->
  py_get (JObj table) "table_name" = Return table_name ->
  truthy table_name = false ->
  validate_definition_files dataset_folder = Raise (ValueError message)
  /\ build_parse_dag id dataset_folder
     = Return (placeholder_dag (effective_dag_id id) (ValueError message))
  /\ contains message json_file.
Proof.
  intros message Hfiles HF Er Et Ed Hfn Hn Hf.
  assert (HV : validate_definition_files dataset_folder
               = Raise (ValueError message)).
  { apply (validate_first_failure _ _ _ _ _ Hfiles HF).
    assert (Tt : truthy (JObj table) = true)
      by (destruct table; [discriminate | reflexivity]).
    apply truthy_JStr in Hfn. injection Hn as Hn.
    unfold validate_definition_file. rewrite Er. cbn [py_get bind].
    rewrite Et, Tt. cbn [negb py_get bind]. rewrite Ed, Hfn.
    cbn [negb str_ne]. rewrite String.eqb_refl. cbn [negb].
    rewrite Hn. now rewrite Hf. }
  split; [exact HV|]. split.
  - now rewrite (build_parse_dag_invalid _ _ _ HV).
  - apply contains_append_l, contains_refl.
Qed.

(** X7. A definition whose [table_name] is not the name of its file makes
    validation raise a [ValueError] that cites the file name and the
    declared [table_name]. *)
Theorem X7_file_name_mismatch (id dataset_folder : string)
    (before after : list string) (json_file : string)
    (entries table : list (string * json)) (table_name : json) :
  let message :=
    "file_name " ++ file_name_of json_file
    ++ " doest match the table_name " ++ format table_name in
  get_list_of_files dataset_folder "*.json"
  = (before ++ json_file :: after)%list ->
  Forall (passes_file_checks dataset_folder) before ->
  read_json_file json_file = JObj entries ->
  dict_get entries "table" = Some (JObj table) ->
  dict_get table "dataset_name" = Some (JStr (last_component dataset_folder)) ->
  last_component dataset_folder <> "" ->
  dict_get table "table_name" = Some table_name ->
  truthy table_name = true ->
  table_name <> JStr (file_name_of json_file) ->
  validate_definition_files dataset_folder = Raise (ValueError message)
  /\ build_parse_dag id dataset_folder
     = Return (placeholder_dag (effective_dag_id id) (ValueError message))
  /\ contains message (file_name_of json_file)
  /\ contains message (format table_name).
Proof.
  intros message Hfiles HF Er Et Ed Hfn Hn Ht Hne.
  assert (HV : validate_definition_files dataset_folder
               = Raise (ValueError message)).
  { apply (validate_first_failure _ _ _ _ _ Hfiles HF).
    assert (Tt : truthy (JObj table) = true)
      by (destruct table; [discriminate | reflexivity]).
    apply truthy_JStr in Hfn.
    unfold validate_definition_file. fold (file_name_of json_file).
    rewrite Er. cbn [py_get bind].
    rewrite Et, Tt. cbn [negb py_get bind]. rewrite Ed, Hfn.
    cbn [negb str_ne]. rewrite String.eqb_refl. cbn [negb].
    rewrite Hn, Ht. cbn [negb].
    destruct (str_ne (file_name_of json_file) table_name) eqn:E;
      [reflexivity|].
    apply str_ne_false in E. congruence. }
  split; [exact HV|]. split; [|split].
  - now rewrite (build_parse_dag_invalid _ _ _ HV).
  - apply contains_append_l, contains_append_r, contains_refl.
  - apply contains_append_l, contains_append_l, contains_append_l,
      contains_refl.
Qed.

Lemma last_component_slash (s : string) : last_component (s ++ "/") = "".
Proof.
  only_goal. unfold last_component.
  assert (H : exists h t, split "/" (s ++ "/") = (h :: t ++ [""])%list).
  { induction s as [|c s (h & t & IH)]; simpl.
    - now exists "", [].
    - rewrite IH. destruct (Ascii.eqb c "/").
      + now exists "", (h :: t).
      + now exists (String c h), t. }
  destruct H as (h & t & ->).
  apply (last_last (h :: t) "" "").
Qed.

(** X8. When the folder path ends with a slash, the folder name computed
    on line 211 is empty, and validation cannot succeed as soon as the
    folder holds a JSON file. *)
Theorem X8_trailing_slash (dataset_folder : string) :
  get_list_of_files (dataset_folder ++ "/") "*.json" <> [] ->
  validate_definition_files (dataset_folder ++ "/") <> Return tt.
Proof.
  intros Hne HV.
  apply validate_definition_files_Return in HV as [HF _].
  destruct (get_list_of_files (dataset_folder ++ "/") "*.json") as [|f fs];
    [congruence|].
  inversion HF as [|? ? [name Hn] _]; subst.
  apply validate_definition_file_inv in Hn as (_ & _ & _ & _ & _ & H & _).
  apply H, last_component_slash.
Qed.

(** X9. A folder without JSON files passes validation, and its graph is
    the sensor, the checkpoint and one view task per SQL file: the
    checkpoint has no upstream task and the sensor no downstream task. *)
Theorem X9_no_definitions (id dataset_folder : string) :
  let sql_files := get_list_of_files dataset_folder "*.sql" in
  get_list_of_files dataset_folder "*.json" = [] ->
  validate_definition_files dataset_folder = Return tt
  /\ build_parse_dag id dataset_folder
     = Return (mkDAG (effective_dag_id id)
                 (wait_for_ethereum_load_dag_task
                  :: checkpoint_task
                  :: map (create_view_operator dataset_folder) sql_files)
                 (map (fun t => (1, t)) (seq 2 (List.length sql_files)))).
Proof.
  intros sql_files Hfiles.
  assert (HV : validate_definition_files dataset_folder = Return tt).
  { apply validate_definition_files_Return. rewrite Hfiles.
    split; constructor. }
  split; [exact HV|].
  rewrite (build_parse_dag_resolved id dataset_folder [] HV);
    rewrite ?Hfiles; try constructor.
  unfold expected_dag. now rewrite Hfiles.
Qed.

(** ** Further properties of the builder *)

Lemma Forall2_Forall_exists {A B : Type} (R : A -> B -> Prop) (l : list A)
    (l' : list B) :
  Forall2 R l l' -> Forall (fun a => exists b, R a b) l.
Proof.
  only_goal. induction 1; constructor; eauto.
Qed.


Lemma create_parse_tasks_Raise (sensor : task_ref)
    (before after : list string) (json_file : string) (e : exn) :
  forall dag all_parse_tasks task_dependencies,
    Forall (fun f => table_name_of (read_json_file f)
                     = Return (file_name_of f))
      (before ++ json_file :: after)%list ->
    Forall (fun f => exists deps,
                dependencies_of (read_json_file f) = Return deps) before ->
    dependencies_of (read_json_file json_file) = Raise e ->
    create_parse_tasks sensor (before ++ json_file :: after)%list dag
      all_parse_tasks task_dependencies
    = Raise e.
Proof.
  induction before as [|f fs IH]; intros dag apt td HN HW He;
    inversion HN as [|? ? Hn HN']; subst;
    cbn [app create_parse_tasks]; rewrite create_parse_task_eq, Hn.
  - rewrite He. reflexivity.
  - inversion HW as [|? ? [deps Hd] HW']; subst.
    rewrite Hd. cbn [bind]. now apply IH.
Qed.

(** The first definition whose parser section cannot be read decides how
    the build of a validated folder ends. *)
Lemma build_parse_dag_parser_error (id dataset_folder : string)
    (before after : list string) (json_file : string) (e : exn) :
  validate_definition_files dataset_folder = Return tt ->
  get_list_of_files dataset_folder "*.json"
  = (before ++ json_file :: after)%list ->
  Forall (fun f => exists deps,
              dependencies_of (read_json_file f) = Return deps) before ->
  dependencies_of (read_json_file json_file) = Raise e ->
  build_parse_dag id dataset_folder = Raise e.
Proof.
  intros HV Hfiles HW He.
  destruct (validated_files _ HV) as [HN _].
  rewrite (build_parse_dag_validated _ _ HV). rewrite Hfiles in *.
  now rewrite (create_parse_tasks_Raise 0 before after json_file e).
Qed.



(** X13. The graph of a validated folder has one parse task per JSON
    file, in the order of the files; its identifier is the name of the
    file, and no two parse tasks share an identifier. *)
Theorem X13_parse_tasks (id dataset_folder : string) (dag : DAG) :
  let json_files := get_list_of_files dataset_folder "*.json" in
  validate_definition_files dataset_folder = Return tt ->
  build_parse_dag id dataset_folder = Return dag ->
  filter is_parse_task (tasks dag) = map parsing_operator json_files
  /\ map task_id (filter is_parse_task (tasks dag))
     = map file_name_of json_files
  /\ NoDup (map task_id (filter is_parse_task (tasks dag))).
Proof.
  intros json_files HV HB.
  destruct (build_parse_dag_inv _ _ _ HV HB) as (depss & _ & _ & ->).
  destruct (validated_files _ HV) as [_ ND]. fold json_files in ND.
  assert (Hp : filter is_parse_task
                 (tasks (expected_dag id dataset_folder depss))
               = map parsing_operator json_files).
  { unfold expected_dag. cbn [tasks filter is_parse_task].
    rewrite filter_app. cbn [filter is_parse_task].
    rewrite filter_map_all by reflexivity.
    rewrite filter_map_none by reflexivity.
    now rewrite app_nil_r. }
  rewrite Hp, map_map. cbn [parsing_operator task_id]. auto.
Qed.

(** X19. Every graph that [build_parse_dag] returns carries the
    identifier it was given, with [_FULL] appended when all partitions
    are parsed. *)
Theorem X19_dag_id (id dataset_folder : string) (dag : DAG) :
  build_parse_dag id dataset_folder = Return dag ->
  dag_id dag
  = match parse_all_partitions with
    | Some true => id ++ "_FULL"
    | _ => id
    end.
Proof.
  intros HB.
  destruct (validation_outcomes dataset_folder) as [HV | [[msg HV] | HV]].
  - destruct (build_parse_dag_inv _ _ _ HV HB) as (depss & _ & _ & ->).
    reflexivity.
  - rewrite (build_parse_dag_invalid _ _ _ HV) in HB.
    injection HB as <-. reflexivity.
  - rewrite (build_parse_dag_invalid _ _ _ HV) in HB. discriminate.
Qed.

Lemma In_combine_files (json_files : list string) :
  forall (dependencies : list (list string)) (k : string) (deps : list string),
    In (k, deps) (combine (map file_name_of json_files) dependencies) ->
    exists j f,
      nth_error json_files j = Some f
      /\ k = file_name_of f
      /\ nth_error dependencies j = Some deps.
Proof.
  only_goal.
  induction json_files as [|f fs IH]; intros [|d ds] k deps Hin;
    simpl in Hin; try contradiction.
  destruct Hin as [E | Hin].
  - injection E as <- <-. now exists 0, f.
  - destruct (IH ds k deps Hin) as (j & g & Hj & -> & Hd).
    now exists (S j), g.
Qed.

Lemma In_file_names (json_files : list string) (d : string) :
  In d (map file_name_of json_files) ->
  exists i f, nth_error json_files i = Some f /\ file_name_of f = d.
Proof.
  only_goal. intros Hin. apply in_map_iff in Hin as (f & <- & Hf).
  apply In_nth_error in Hf as [i Hi]. now exists i, f.
Qed.

(** The edges of the graph of a validated folder, by kind. *)
Lemma edge_kinds (id dataset_folder : string) (dag : DAG)
    (u v : task_ref) :
  let json_files := get_list_of_files dataset_folder "*.json" in
  let sql_files := get_list_of_files dataset_folder "*.sql" in
  let checkpoint := S (List.length json_files) in
  validate_definition_files dataset_folder = Return tt ->
  build_parse_dag id dataset_folder = Return dag ->
  In (u, v) (edges dag) ->
  (u = 0 /\ exists i, v = S i /\ i < List.length json_files)
  \/ (exists i j fa fb,
         u = S i /\ v = S j
         /\ nth_error json_files i = Some fa
         /\ nth_error json_files j = Some fb
         /\ references dataset_folder fb (file_name_of fa))
  \/ (v = checkpoint /\ exists i, u = S i /\ i < List.length json_files)
  \/ (u = checkpoint
      /\ exists k, v = S checkpoint + k /\ k < List.length sql_files).
Proof.
  intros json_files sql_files checkpoint HV HB Hin.
  subst json_files sql_files checkpoint.
  destruct (build_parse_dag_inv _ _ _ HV HB) as (depss & HD & HR & ->).
  destruct (validated_files _ HV) as [_ ND].
  pose proof (Forall2_length HD) as HL. symmetry in HL.
  unfold expected_dag in Hin. cbn [edges] in Hin.
  apply in_app_or in Hin as [Hin | Hin]; [|apply in_app_or in Hin as [Hin | Hin]].
  - left. apply in_map_iff in Hin as (t & [= <- <-] & Ht).
    apply in_seq in Ht. split; [reflexivity|].
    exists (t - 1). lia.
  - apply in_flat_map in Hin as ([k deps] & Hitem & Hin).
    destruct (In_combine_files _ _ _ _ Hitem) as (j & fb & Hj & -> & Hdj).
    pose proof (expected_ref dataset_folder ND j fb Hj) as Hrj.
    unfold wiring in Hin. cbn [fst snd] in Hin.
    apply in_app_or in Hin as [Hin | [[= <- <-] | []]].
    + right. left.
      apply in_map_iff in Hin as (d & [= <- <-] & Hd).
      rewrite Forall_forall in HR.
      pose proof (HR deps (nth_error_In _ _ Hdj)) as Hdeps.
      rewrite Forall_forall in Hdeps.
      destruct (In_file_names _ _ (Hdeps d Hd)) as (i & fa & Hi & <-).
      exists i, j, fa, fb.
      rewrite (expected_ref dataset_folder ND i fa Hi), Hrj.
      repeat split; auto.
      * eapply nth_error_In; eauto.
      * destruct (Forall2_nth_error _ _ _ HD j fb Hj) as (deps' & Hd' & E).
        assert (deps' = deps) as -> by congruence.
        now apply (dependencies_of_In _ _ _ E).
    + right. right. left. split; [reflexivity|].
      exists j. rewrite Hrj. split; [reflexivity|].
      now apply nth_error_lt in Hj.
  - right. right. right.
    apply in_map_iff in Hin as (t & [= <- <-] & Ht).
    apply in_seq in Ht. split; [reflexivity|].
    exists (t - S (S (List.length (get_list_of_files dataset_folder "*.json")))).
    lia.
Qed.

(** X14. In the graph of a validated folder every edge is of one of four
    kinds: from the sensor to a parse task; from the parse task of a table
    to the parse task of a definition that refers to that table; from a
    parse task to the checkpoint; from the checkpoint to a view task. *)
Theorem X14_edge_kinds (id dataset_folder : string) (dag : DAG)
    (u v : task_ref) :
  let json_files := get_list_of_files dataset_folder "*.json" in
  let sql_files := get_list_of_files dataset_folder "*.sql" in
  let checkpoint := S (List.length json_files) in
  validate_definition_files dataset_folder = Return tt ->
  build_parse_dag id dataset_folder = Return dag ->
  In (u, v) (edges dag) ->
  (u = 0 /\ exists i, v = S i /\ i < List.length json_files)
  \/ (exists i j fa fb,
         u = S i /\ v = S j
         /\ nth_error json_files i = Some fa
         /\ nth_error json_files j = Some fb
         /\ references dataset_folder fb (file_name_of fa))
  \/ (v = checkpoint /\ exists i, u = S i /\ i < List.length json_files)
  \/ (u = checkpoint
      /\ exists k, v = S checkpoint + k /\ k < List.length sql_files).
Proof.
  intros json_files sql_files checkpoint. apply edge_kinds.
Qed.

Lemma filter_wiring_checkpoint (ks : list string)
    (items : list (string * list string)) :
  let all_parse_tasks := combine ks (seq 1 (List.length ks)) in
  let checkpoint := S (List.length ks) in
  filter (fun e => Nat.eqb (snd e) checkpoint)
    (flat_map (wiring all_parse_tasks checkpoint) items)
  = map (fun item => (ref_of all_parse_tasks (fst item), checkpoint)) items.
Proof.
  only_goal. intros apt cp.
  induction items as [|item items IH]; [reflexivity|].
  cbn [flat_map map]. unfold wiring at 1.
  rewrite !filter_app, IH.
  rewrite filter_target_none.
  - cbn [filter snd app]. now rewrite Nat.eqb_refl.
  - apply Forall_forall. intros e He.
    apply in_map_iff in He as (d & <- & _). cbn [snd].
    pose proof (ref_of_bound ks (fst item)). fold apt in H.
    unfold cp. lia.
Qed.

Lemma map_ref_of_keys (ks : list string) :
  forall b,
    NoDup ks ->
    map (ref_of (combine ks (seq b (List.length ks)))) ks
    = seq b (List.length ks).
Proof.
  only_goal.
  induction ks as [|k ks IH]; intros b ND; [reflexivity|].
  inversion ND as [|? ? Hn ND']; subst.
  cbn [List.length seq combine map]. f_equal.
  - unfold ref_of. simpl. now rewrite String.eqb_refl.
  - etransitivity; [|exact (IH (S b) ND')]. apply map_ext_in.
    intros k' Hk'. unfold ref_of. simpl.
    destruct (String.eqb k k') eqn:E; [|reflexivity].
    apply String.eqb_eq in E. congruence.
Qed.

(** X15. The tasks upstream of the checkpoint are the parse tasks, all of
    them and nothing else, in the order of the JSON files. *)
Theorem X15_checkpoint_upstream (id dataset_folder : string) (dag : DAG) :
  let json_files := get_list_of_files dataset_folder "*.json" in
  validate_definition_files dataset_folder = Return tt ->
  build_parse_dag id dataset_folder = Return dag ->
  upstream dag (S (List.length json_files))
  = seq 1 (List.length json_files).
Proof.
  intros json_files HV HB.
  destruct (build_parse_dag_inv _ _ _ HV HB) as (depss & HD & _ & ->).
  destruct (validated_files _ HV) as [_ ND].
  fold json_files in HD, ND.
  pose proof (Forall2_length HD) as HL.
  unfold upstream, expected_dag. cbn [edges]. fold json_files.
  rewrite !filter_app.
  rewrite (filter_target_none _ (map _ (seq 1 _))).
  2:{ apply Forall_forall. intros e He.
      apply in_map_iff in He as (t & <- & Ht).
      apply in_seq in Ht. simpl. lia. }
  rewrite (filter_target_none _ (map _ (seq (S (S _)) _))).
  2:{ apply Forall_forall. intros e He.
      apply in_map_iff in He as (t & <- & Ht).
      apply in_seq in Ht. simpl. lia. }
  rewrite app_nil_r. cbn [app].
  rewrite <- (length_map file_name_of json_files).
  rewrite filter_wiring_checkpoint, map_map. cbn [fst].
  rewrite <- (map_map fst (ref_of _)).
  rewrite map_fst_combine by (rewrite length_map; exact HL).
  now apply map_ref_of_keys.
Qed.

(** X16. Nothing is upstream of the sensor. *)
Theorem X16_sensor_is_a_root (id dataset_folder : string) (dag : DAG) :
  validate_definition_files dataset_folder = Return tt ->
  build_parse_dag id dataset_folder = Return dag ->
  nth_error (tasks dag) 0 = Some wait_for_ethereum_load_dag_task
  /\ upstream dag 0 = [].
Proof.
  intros HV HB.
  destruct (build_parse_dag_inv _ _ _ HV HB) as (depss & HD & HR & E).
  split; [now subst dag|].
  unfold upstream. rewrite filter_target_none; [reflexivity|].
  apply Forall_forall. intros [u v] Hin. cbn [snd].
  destruct (edge_kinds id dataset_folder dag u v HV HB Hin)
    as [(_ & i & -> & _) | [(i & j & _ & _ & _ & -> & _)
                           | [(-> & _) | (_ & k & -> & _)]]];
    discriminate.
Qed.

(** X17. References are not checked for cycles: a definition that refers
    to its own table passes, and its parse task gets an edge to itself. *)
Theorem X17_self_reference (id dataset_folder : string) (dag : DAG)
    (i : nat) (json_file : string) :
  let json_files := get_list_of_files dataset_folder "*.json" in
  validate_definition_files dataset_folder = Return tt ->
  build_parse_dag id dataset_folder = Return dag ->
  nth_error json_files i = Some json_file ->
  references dataset_folder json_file (file_name_of json_file) ->
  nth_error (tasks dag) (S i) = Some (parsing_operator json_file)
  /\ In (S i, S i) (edges dag).
Proof.
  intros json_files HV HB Hi (_ & s & Hs & Hin).
  destruct (build_parse_dag_inv _ _ _ HV HB) as (depss & HD & _ & ->).
  destruct (validated_files _ HV) as [_ ND].
  fold json_files in HD, ND.
  pose proof (Forall2_length HD) as HL. symmetry in HL.
  destruct (Forall2_nth_error _ _ _ HD i json_file Hi) as (deps & Hd & E).
  split; [now apply expected_parse_task|].
  eapply expected_dependency_edge; eauto.
  apply (dependencies_of_In _ _ _ E). eauto.
Qed.

Lemma length_flat_map_wiring (all_parse_tasks : dict task_ref)
    (checkpoint : task_ref) (items : list (string * list string)) :
  List.length (flat_map (wiring all_parse_tasks checkpoint) items)
  = List.length (concat (map snd items)) + List.length items.
Proof.
  only_goal.
  induction items as [|item items IH]; [reflexivity|].
  cbn [flat_map map concat]. unfold wiring at 1.
  rewrite !length_app, length_map, IH. simpl. lia.
Qed.


End Build.
End BuildParseDag.


(** ** File names

    [os.path.splitext] on a base name written [stem.ext]: the view of
    [v1.sql] is [v1]. *)

Lemma rfind_append (c : ascii) (a b : string) :
  rfind c (a ++ b)
  = match rfind c b with
    | Some i => Some (String.length a + i)
    | None => rfind c a
    end.
Proof.
  induction a as [|d a IH]; simpl.
  - now destruct (rfind c b).
  - rewrite IH. now destruct (rfind c b).
Qed.

Lemma substring_append_l (a b : string) :
  substring 0 (String.length a) (a ++ b) = a.
Proof.
  induction a as [|d a IH]; simpl.
  - now destruct b.
  - now rewrite IH.
Qed.

Lemma substring_append_r (a b : string) :
  substring (String.length a) (String.length b) (a ++ b) = b.
Proof.
  induction a as [|d a IH]; simpl; [|exact IH].
  induction b as [|e b IHb]; simpl; [reflexivity | now rewrite IHb].
Qed.

Lemma length_append (a b : string) :
  String.length (a ++ b) = String.length a + String.length b.
Proof.
  induction a as [|d a IH]; simpl; [reflexivity | now rewrite IH].
Qed.

Lemma splitext_extension (stem ext : string) :
  all_dots stem = false ->
  rfind "/" stem = None ->
  rfind "/" ext = None ->
  rfind "." ext = None ->
  splitext (stem ++ "." ++ ext) = (stem, "." ++ ext).
Proof.
  intros Hstem Hs Hse Hd. unfold splitext.
  rewrite !rfind_append. simpl. rewrite Hd, Hse, Hs. simpl.
  rewrite Nat.add_0_r, Nat.sub_0_r, substring_append_l, Hstem. simpl.
  f_equal.
  assert (E : forall n,
             n = String.length (String "." ext) ->
             substring (String.length stem) n (stem ++ String "." ext)
             = String "." ext)
    by (intros n ->; apply substring_append_r).
  apply E. rewrite length_append. simpl. lia.
Qed.

Lemma view_name_of_sql (stem : string) :
  all_dots stem = false ->
  rfind "/" stem = None ->
  view_name_of (stem ++ ".sql") = stem.
Proof.
  intros Hstem Hs. unfold view_name_of, basename, last_component.
  assert (Hb : forall a, rfind "/" a = None -> split "/" a = [a]).
  { induction a as [|c a IH]; simpl; [reflexivity|].
    destruct (rfind "/" a) eqn:E; [discriminate|].
    destruct (Ascii.eqb c "/"); [discriminate|]. intros _.
    now rewrite (IH eq_refl). }
  rewrite Hb.
  - cbn [last]. change (stem ++ ".sql") with (stem ++ "." ++ "sql").
    now rewrite splitext_extension.
  - rewrite rfind_append. simpl. exact Hs.
Qed.

(** C10. A definition whose [parser.contract_address] is [null] gets an
    empty list of dependencies whatever the reference extractor is, so the
    extractor is not applied to it; its parse task is constructed, and in
    the graph of a validated folder it has an edge from the sensor and an
    edge to the checkpoint. *)
Theorem C10_null_contract_address
    (glob : string -> list string) (read_json_file : string -> json)
    (read_file : string -> string) (findall : string -> list string)
    (lower : string -> string) (py_str : json -> string)
    (project : string) (all_partitions : option bool)
    (id dataset_folder : string) (dag : DAG) (i : nat) (f : string) :
  let json_files := get_list_of_files glob dataset_folder "*.json" in
  let checkpoint := S (List.length json_files) in
  contract_address_of (read_json_file f) = Return JNull ->
  validate_definition_files glob read_json_file lower py_str dataset_folder
  = Return tt ->
  build_parse_dag glob read_json_file read_file findall lower py_str project
    all_partitions id dataset_folder = Return dag ->
  nth_error json_files i = Some f ->
  (forall (extractor : string -> list string) (dag0 : DAG),
      dependencies_of extractor (read_json_file f) = Return []
      /\ create_parse_task extractor project all_partitions dag0
           (read_json_file f)
         = Return (List.length (tasks dag0), [],
                   mkDAG (dag_id dag0)
                     (tasks dag0
                      ++ [parsing_operator read_json_file project
                            all_partitions f])%list
                     (edges dag0)))
  /\ nth_error (tasks dag) 0 = Some wait_for_ethereum_load_dag_task
  /\ nth_error (tasks dag) (S i)
     = Some (parsing_operator read_json_file project all_partitions f)
  /\ nth_error (tasks dag) checkpoint = Some checkpoint_task
  /\ In (0, S i) (edges dag)
  /\ In (S i, checkpoint) (edges dag).
Proof.
  intros json_files checkpoint Hc HV HB Hf.
  split.
  - intros extractor dag0.
    apply create_parse_task_null; [|exact Hc].
    destruct (validated_files _ _ _ _ _ HV) as [HN _].
    rewrite Forall_forall in HN. apply HN.
    eapply nth_error_In; eauto.
  - eapply parse_task_wired; eauto.
Qed.

(** ** The claims on the sample folders *)

#[local] Abbreviation validate_sample f :=
  (validate_definition_files (Sample.glob f) (Sample.read_json_file f)
     Sample.lower Sample.py_str "defs/mydataset").

#[local] Abbreviation build_sample f :=
  (build_parse_dag (Sample.glob f) (Sample.read_json_file f)
     (Sample.read_file f) Sample.findall Sample.lower Sample.py_str
     "proj" None "dag" "defs/mydataset").

#[local] Abbreviation references_sample f :=
  (references (Sample.glob f) (Sample.read_json_file f) Sample.findall
     "defs/mydataset").

#[local] Abbreviation defines_table_sample f :=
  (defines_table (Sample.glob f) (Sample.read_json_file f) "defs/mydataset").

Lemma dangling_reference :
  references_sample Sample.dangling "defs/mydataset/B.json" "A".
Proof.
  split; [now left|].
  exists "SELECT pool FROM ref('A')". split; [reflexivity | now left].
Qed.

Lemma dangling_table_absent : ~ defines_table_sample Sample.dangling "A".
Proof.
  intros (f & [<- | []] & E). vm_compute in E. discriminate.
Qed.

Lemma dangling_parsers_well_formed :
  parsers_well_formed (Sample.glob Sample.dangling)
    (Sample.read_json_file Sample.dangling) Sample.findall "defs/mydataset".
Proof.
  repeat constructor. eexists. reflexivity.
Qed.






Lemma C4_witness :
  exists dag,
    build_sample Sample.good = Return dag
    /\ nth_error (tasks dag) 1
       = Some (parsing_operator (Sample.read_json_file Sample.good)
                 "proj" None "defs/mydataset/A.json")
    /\ nth_error (tasks dag) 2
       = Some (parsing_operator (Sample.read_json_file Sample.good)
                 "proj" None "defs/mydataset/B.json")
    /\ nth_error (tasks dag) 3 = Some checkpoint_task
    /\ In (1, 2) (edges dag)
    /\ In (1, 3) (edges dag)
    /\ In (2, 3) (edges dag)
    /\ (forall t op,
           nth_error (tasks dag) t = Some op ->
           is_parse_task op = true -> t < 3).
Proof.
  eexists. split; [reflexivity|].
  apply (C4_dependency_order (Sample.glob Sample.good)
           (Sample.read_json_file Sample.good) (Sample.read_file Sample.good)
           Sample.findall Sample.lower Sample.py_str
           "proj" None "dag" "defs/mydataset" _ 0 1
           "defs/mydataset/A.json" "defs/mydataset/B.json" "A"
           "SELECT pool FROM ref('A')").
  - reflexivity.
  - reflexivity.
  - reflexivity.
  - reflexivity.
  - reflexivity.
  - reflexivity.
  - reflexivity.
  - simpl. left. reflexivity.
Defined.

Lemma C5_witness :
  exists dag,
    build_sample Sample.good = Return dag
    /\ map task_id (filter is_view_task (tasks dag))
       = ["create_view_v1"; "create_view_v2"; "create_view_v3"]
    /\ (forall t op,
           nth_error (tasks dag) t = Some op ->
           is_view_task op = true ->
           upstream dag t = [3]).
Proof.
  eexists. split; [reflexivity|].
  destruct (C5_view_tasks (Sample.glob Sample.good)
              (Sample.read_json_file Sample.good) (Sample.read_file Sample.good)
              Sample.findall Sample.lower Sample.py_str
              "proj" None "dag" "defs/mydataset" _ eq_refl eq_refl)
    as (_ & _ & Hnames & _ & Hup).
  split; [exact Hnames | exact Hup].
Defined.

Lemma C6_witness : validate_sample Sample.good = Return tt.
Proof.
  apply (C6_valid_definitions_pass (Sample.glob Sample.good)
           (Sample.read_json_file Sample.good) Sample.lower Sample.py_str
           "defs/mydataset").
  - repeat constructor;
      do 2 eexists;
      (split; [reflexivity|]); (split; [reflexivity|]);
      (split; [reflexivity|]); (split; [discriminate|]);
      (split; [reflexivity | discriminate]).
  - vm_compute. repeat constructor; simpl; intuition discriminate.
Defined.

Lemma C7_witness :
  declared_dataset_name
    (Sample.read_json_file Sample.wrong_dataset "defs/mydataset/foo.json")
  = Some (JStr "other")
  /\ validate_sample Sample.wrong_dataset
     = Raise (ValueError
                "dataset_name other is not equal to dataset_folder_name mydataset")
  /\ contains
       "dataset_name other is not equal to dataset_folder_name mydataset"
       "other"
  /\ contains
       "dataset_name other is not equal to dataset_folder_name mydataset"
       "mydataset".
Proof.
  split; [reflexivity|].
  apply (proj2 (C7_dataset_name_mismatch (Sample.glob Sample.wrong_dataset)
                  (Sample.read_json_file Sample.wrong_dataset)
                  Sample.lower Sample.py_str
                  "defs/mydataset" "defs/mydataset/foo.json" (JStr "other")
                  (or_introl eq_refl) eq_refl eq_refl
                  ltac:(discriminate))
           [] []).
  - reflexivity.
  - constructor.
Defined.

Lemma C8_witness :
  exists dag,
    build_sample Sample.good = Return dag
    /\ filter is_sensor (tasks dag) = [wait_for_ethereum_load_dag_task]
    /\ In (0, 1) (edges dag)
    /\ In (0, 2) (edges dag).
Proof.
  eexists. split; [reflexivity|].
  destruct (C8_upstream_sensor (Sample.glob Sample.good)
              (Sample.read_json_file Sample.good) (Sample.read_file Sample.good)
              Sample.findall Sample.lower Sample.py_str
              "proj" None "dag" "defs/mydataset" _ eq_refl eq_refl)
    as (Hs & _ & _ & He).
  split; [exact Hs|].
  split; eapply He; reflexivity.
Defined.

Lemma C9_witness :
  exists dag,
    build_sample Sample.wrong_dataset = Return dag
    /\ map task_id (tasks dag) = ["validation_error"]
    /\ edges dag = [].
Proof.
  destruct (C9_validation_error_graph (Sample.glob Sample.wrong_dataset)
              (Sample.read_json_file Sample.wrong_dataset)
              (Sample.read_file Sample.wrong_dataset)
              Sample.findall Sample.lower Sample.py_str
              "proj" None "dag" "defs/mydataset"
              "dataset_name other is not equal to dataset_folder_name mydataset"
              eq_refl)
    as (dag & HB & _ & Hn & _ & _ & _ & _ & He).
  exists dag. auto.
Defined.

Lemma C10_witness :
  contract_address_of
    (Sample.read_json_file Sample.good "defs/mydataset/A.json") = Return JNull
  /\ exists dag,
       build_sample Sample.good = Return dag
       /\ nth_error (tasks dag) 1
          = Some (parsing_operator (Sample.read_json_file Sample.good)
                    "proj" None "defs/mydataset/A.json")
       /\ In (0, 1) (edges dag)
       /\ In (1, 3) (edges dag).
Proof.
  split; [reflexivity|].
  eexists. split; [reflexivity|].
  destruct (C10_null_contract_address (Sample.glob Sample.good)
              (Sample.read_json_file Sample.good) (Sample.read_file Sample.good)
              Sample.findall Sample.lower Sample.py_str
              "proj" None "dag" "defs/mydataset" _ 0 "defs/mydataset/A.json"
              eq_refl eq_refl eq_refl eq_refl)
    as (_ & _ & Ht & _ & Hs & Hc).
  split; [exact Ht|]. split; [exact Hs | exact Hc].
Defined.

(** ** The further properties on the sample folders *)

#[local] Abbreviation on_sample T f :=
  (T (Sample.glob f) (Sample.read_json_file f) (Sample.read_file f)
     Sample.findall Sample.lower Sample.py_str "proj" None "dag"
     "defs/mydataset").

#[local] Abbreviation validator_on_sample T f :=
  (T (Sample.glob f) (Sample.read_json_file f) Sample.lower Sample.py_str
     "defs/mydataset").

Lemma X1_witness : validate_sample Sample.good = Return tt.
Proof.
  apply (proj2 (validator_on_sample X1_validation_succeeds_iff Sample.good)).
  split.
  - repeat constructor;
      do 2 eexists;
      (split; [reflexivity|]); (split; [reflexivity|]);
      (split; [reflexivity|]); (split; [discriminate|]);
      (split; [reflexivity | discriminate]).
  - vm_compute. repeat constructor; simpl; intuition discriminate.
Defined.

Lemma X3_witness :
  validate_sample Sample.not_an_object = Raise AttributeError
  /\ build_sample Sample.not_an_object = Raise AttributeError.
Proof.
  apply (on_sample X3_definition_not_an_object Sample.not_an_object
           [] [] "defs/mydataset/foo.json").
  - reflexivity.
  - constructor.
  - intros entries H. vm_compute in H. discriminate.
Defined.

Lemma X4_witness :
  validate_sample Sample.no_table
  = Raise (ValueError "table is empty in file defs/mydataset/foo.json")
  /\ build_sample Sample.no_table
     = Return (placeholder_dag "dag"
                 (ValueError "table is empty in file defs/mydataset/foo.json"))
  /\ contains "table is empty in file defs/mydataset/foo.json"
       "defs/mydataset/foo.json".
Proof.
  apply (on_sample X4_table_section_missing Sample.no_table
           [] [] "defs/mydataset/foo.json" JNull).
  - reflexivity.
  - constructor.
  - reflexivity.
  - reflexivity.
Defined.

Lemma X5_witness :
  validate_sample Sample.no_dataset_name
  = Raise (ValueError "dataset_name is empty in file defs/mydataset/foo.json").
Proof.
  apply (on_sample X5_dataset_name_missing Sample.no_dataset_name
           [] [] "defs/mydataset/foo.json"
           [("table", JObj [("table_name", JStr "foo")])]
           [("table_name", JStr "foo")] JNull).
  - reflexivity.
  - constructor.
  - reflexivity.
  - reflexivity.
  - discriminate.
  - reflexivity.
  - reflexivity.
Defined.

Lemma X6_witness :
  validate_sample Sample.no_table_name
  = Raise (ValueError "table_name is empty in file defs/mydataset/foo.json").
Proof.
  apply (on_sample X6_table_name_missing Sample.no_table_name
           [] [] "defs/mydataset/foo.json"
           [("table", JObj [("dataset_name", JStr "mydataset")])]
           [("dataset_name", JStr "mydataset")] JNull).
  - reflexivity.
  - constructor.
  - reflexivity.
  - reflexivity.
  - reflexivity.
  - discriminate.
  - reflexivity.
  - reflexivity.
Defined.

Lemma X7_witness :
  validate_sample Sample.misnamed
  = Raise (ValueError "file_name foo doest match the table_name bar").
Proof.
  apply (on_sample X7_file_name_mismatch Sample.misnamed
           [] [] "defs/mydataset/foo.json"
           [("parser", JObj [("type", JStr "log");
                             ("contract_address", JNull)]);
            ("table", JObj [("dataset_name", JStr "mydataset");
                            ("table_name", JStr "bar")])]
           [("dataset_name", JStr "mydataset"); ("table_name", JStr "bar")]
           (JStr "bar")).
  - reflexivity.
  - constructor.
  - reflexivity.
  - reflexivity.
  - reflexivity.
  - discriminate.
  - reflexivity.
  - reflexivity.
  - discriminate.
Defined.

Lemma X8_witness :
  validate_definition_files (Sample.glob Sample.good)
    (Sample.read_json_file Sample.good) Sample.lower Sample.py_str
    "defs/mydataset/"
  <> Return tt.
Proof.
  apply (X8_trailing_slash (Sample.glob Sample.good)
           (Sample.read_json_file Sample.good) Sample.lower Sample.py_str
           "defs/mydataset").
  discriminate.
Defined.

Lemma X9_witness :
  build_sample Sample.views_only
  = Return (mkDAG "dag"
              [wait_for_ethereum_load_dag_task; checkpoint_task;
               create_view_operator (Sample.read_file Sample.views_only)
                 "proj" "defs/mydataset" "defs/mydataset/v1.sql";
               create_view_operator (Sample.read_file Sample.views_only)
                 "proj" "defs/mydataset" "defs/mydataset/v2.sql"]
              [(1, 2); (1, 3)]).
Proof.
  apply (on_sample X9_no_definitions Sample.views_only). reflexivity.
Defined.




Lemma X13_witness :
  exists dag,
    build_sample Sample.good = Return dag
    /\ map task_id (filter is_parse_task (tasks dag)) = ["A"; "B"].
Proof.
  eexists. split; [reflexivity|].
  apply (on_sample X13_parse_tasks Sample.good _ eq_refl eq_refl).
Defined.

Lemma X14_witness :
  exists dag,
    build_sample Sample.good = Return dag
    /\ In (1, 2) (edges dag)
    /\ references_sample Sample.good "defs/mydataset/B.json" "A".
Proof.
  eexists. split; [reflexivity|].
  assert (Hin : In (1, 2) [(0, 1); (0, 2); (1, 3); (1, 2); (2, 3);
                           (3, 4); (3, 5); (3, 6)])
    by (simpl; auto).
  split; [exact Hin|].
  destruct (on_sample X14_edge_kinds Sample.good _ 1 2 eq_refl eq_refl Hin)
    as [[E _] | [(i & j & fa & fb & Ei & Ej & Ha & Hb & Hr)
                | [[E _] | [E _]]]];
    try discriminate.
  injection Ei as <-. injection Ej as <-.
  injection Ha as <-. injection Hb as <-. exact Hr.
Defined.

Lemma X15_witness :
  exists dag,
    build_sample Sample.good = Return dag /\ upstream dag 3 = [1; 2].
Proof.
  eexists. split; [reflexivity|].
  apply (on_sample X15_checkpoint_upstream Sample.good _ eq_refl eq_refl).
Defined.

Lemma X16_witness :
  exists dag,
    build_sample Sample.good = Return dag /\ upstream dag 0 = [].
Proof.
  eexists. split; [reflexivity|].
  apply (on_sample X16_sensor_is_a_root Sample.good _ eq_refl eq_refl).
Defined.

Lemma X17_witness :
  exists dag,
    build_sample Sample.self_reference = Return dag
    /\ In (1, 1) (edges dag).
Proof.
  eexists. split; [reflexivity|].
  apply (on_sample X17_self_reference Sample.self_reference _ 0
           "defs/mydataset/A.json" eq_refl eq_refl eq_refl).
  split; [now left|].
  exists "SELECT pool FROM ref('A')". split; [reflexivity | now left].
Defined.


Lemma X19_witness :
  exists dag,
    build_parse_dag (Sample.glob Sample.good)
      (Sample.read_json_file Sample.good) (Sample.read_file Sample.good)
      Sample.findall Sample.lower Sample.py_str "proj" (Some true) "dag"
      "defs/mydataset" = Return dag
    /\ dag_id dag = "dag_FULL".
Proof.
  eexists. split; [reflexivity|].
  apply (X19_dag_id (Sample.glob Sample.good)
           (Sample.read_json_file Sample.good) (Sample.read_file Sample.good)
           Sample.findall Sample.lower Sample.py_str "proj" (Some true) "dag"
           "defs/mydataset" _ eq_refl).
Defined.
